(** * CSVWeatherDataProvider: a shallow embedding of
      pcse/fileinput/csvweatherdataprovider.py

    The provider reads station metadata and daily weather rows from a CSV
    file, converts units, calls the external radiation and
    evapotranspiration routines and fills a date-indexed store; a cache file
    short-circuits the parse when it is newer than the CSV file.

    Python values are modelled by [pyval], Python floats by the binary64
    instance of [spec_float], exceptions by the error monad [result], the
    mutated provider object by an explicit record that is threaded through
    the calls.  Everything the module imports (Python builtins, pcse.util,
    the base class, the settings) is a field of one of the interface classes
    below. *)

From Stdlib Require Import ZArith List String Ascii Bool Lia.
From Stdlib Require Import Floats.SpecFloat.
Import ListNotations.
Open Scope string_scope.

(** ** Python floats (IEEE binary64) *)

Definition float := spec_float.

Module PyFloat.
Definition prec : Z := 53.
Definition emax : Z := 1024.

(** [float(z)] for an integer literal [z]: round to nearest even. *)
Definition of_Z (z : Z) : float := binary_normalize prec emax z 0 false.

Definition nan : float := S754_nan.
Definition zero : float := S754_zero false.
Definition mul : float -> float -> float := SFmul prec emax.
Definition div : float -> float -> float := SFdiv prec emax.
Definition eqb : float -> float -> bool := SFeqb.
Definition ltb : float -> float -> bool := SFltb.

Definition is_infinite (x : float) : bool :=
  match x with S754_infinity _ => true | _ => false end.
End PyFloat.

(** ** Python values, exceptions, results *)

(** [datetime.date] *)
Record date := mkdate { year : Z; month : Z; day : Z }.

#[warnings="-register-all"]
Inductive pyval :=
| VStr (s : string)
| VFloat (x : float)
| VInt (z : Z)
| VBool (b : bool)
| VDate (d : date)
| VTuple (items : list pyval).

(** The exception classes the module can see.  [ValueError] stands for
    ValueError and its subclasses, [OtherException cls] for an exception of
    class [cls] that is neither a ValueError, a NoDataError nor one of the
    classes listed. *)
Inductive exn :=
| ValueError
| NoDataError
| KeyError (key : string)
| TypeError
| RuntimeError
| PCSEError (msg : string)
| OSError
| OtherException (cls : string).

Inductive result (A : Type) :=
| Ok (a : A)
| Raise (e : exn).
Arguments Ok {A} a.
Arguments Raise {A} e.

Definition bind {A B} (r : result A) (k : A -> result B) : result B :=
  match r with
  | Ok a => k a
  | Raise e => Raise e
  end.

Notation "x <- r ;; k" := (bind r (fun x => k))
  (at level 61, r at next level, right associativity).
Notation "' p <- r ;; k" := (bind r (fun p => k))
  (at level 61, p pattern, r at next level, right associativity, only parsing).

Definition is_ok {A} (r : result A) : bool :=
  match r with Ok _ => true | Raise _ => false end.

(** Does [except ValueError] catch the exception? *)
Definition is_ValueError (e : exn) : bool :=
  match e with ValueError => true | _ => false end.
Definition is_NoDataError (e : exn) : bool :=
  match e with NoDataError => true | _ => false end.

Definition raised_NoDataError {A} (r : result A) : bool :=
  match r with Raise e => is_NoDataError e | Ok _ => false end.

(** ** Insertion-ordered dictionaries with string keys *)

Section Dict.
Context {V : Type}.
Definition dict := list (string * V).

Fixpoint dict_get (k : string) (d : dict) : option V :=
  match d with
  | [] => None
  | (k', v) :: d' => if String.eqb k k' then Some v else dict_get k d'
  end.

(** [d[k] = v]: an existing key keeps its position. *)
Fixpoint dict_set (k : string) (v : V) (d : dict) : dict :=
  match d with
  | [] => [(k, v)]
  | (k', v') :: d' =>
      if String.eqb k k' then (k', v) :: d' else (k', v') :: dict_set k v d'
  end.

Definition dict_mem (k : string) (d : dict) : bool :=
  match dict_get k d with Some _ => true | None => false end.

(** [del d[k]] *)
Fixpoint dict_del (k : string) (d : dict) : dict :=
  match d with
  | [] => []
  | (k', v) :: d' =>
      if String.eqb k k' then dict_del k d' else (k', v) :: dict_del k d'
  end.

Definition dict_keys (d : dict) : list string := map fst d.

(** [dict(pairs)] *)
Definition dict_of_pairs (l : list (string * V)) : dict :=
  fold_left (fun d kv => dict_set (fst kv) (snd kv) d) l [].

(** [d[k]], raising KeyError *)
Definition dict_item (k : string) (d : dict) : result V :=
  match dict_get k d with
  | Some v => Ok v
  | None => Raise (KeyError k)
  end.
End Dict.
Arguments dict V : clear implicits.

(** [zip] *)
Fixpoint zip {A B} (l : list A) (m : list B) : list (A * B) :=
  match l, m with
  | a :: l', b :: m' => (a, b) :: zip l' m'
  | _, _ => []
  end.

(** ** os.path (posixpath) *)

Module OsPath.
Definition sep : ascii := "/"%char.
Definition extsep : ascii := "."%char.

(** [p.rfind(c)], -1 when [c] does not occur *)
Fixpoint rfind (c : ascii) (p : string) : Z :=
  match p with
  | EmptyString => -1
  | String a r =>
      let i := rfind c r in
      if (0 <=? i)%Z then (i + 1)%Z
      else if Ascii.eqb a c then 0%Z else (-1)%Z
  end.

(** [p[i:]] and [p[:i]] for [0 <= i] *)
Fixpoint drop (i : nat) (p : string) : string :=
  match i, p with
  | O, _ => p
  | S i', String _ r => drop i' r
  | S _, EmptyString => EmptyString
  end.
Fixpoint take (i : nat) (p : string) : string :=
  match i, p with
  | O, _ => EmptyString
  | S i', String a r => String a (take i' r)
  | S _, EmptyString => EmptyString
  end.

(** [p[i:i+1]] *)
Definition char_at (i : nat) (p : string) : string := take 1 (drop i p).

Definition basename (p : string) : string :=
  let i := (rfind sep p + 1)%Z in
  drop (Z.to_nat i) p.

(** The [while filenameIndex < dotIndex] loop of [genericpath._splitext];
    [n] counts the iterations left, [dotIndex - filenameIndex]. *)
Fixpoint splitext_loop (p : string) (dotIndex filenameIndex n : nat)
  : string * string :=
  match n with
  | O => (p, EmptyString)
  | S n' =>
      if negb (String.eqb (char_at filenameIndex p) (String extsep EmptyString))
      then (take dotIndex p, drop dotIndex p)
      else splitext_loop p dotIndex (S filenameIndex) n'
  end.

Definition splitext (p : string) : string * string :=
  let sepIndex := rfind sep p in
  let dotIndex := rfind extsep p in
  if (sepIndex <? dotIndex)%Z then
    let filenameIndex := (sepIndex + 1)%Z in
    splitext_loop p (Z.to_nat dotIndex) (Z.to_nat filenameIndex)
      (Z.to_nat (dotIndex - filenameIndex))
  else (p, EmptyString).

Definition startswith (pre s : string) : bool := String.prefix pre s.

Definition endswith_sep (a : string) : bool :=
  match rfind sep a with
  | (-1)%Z => false
  | i => (i + 1 =? Z.of_nat (String.length a))%Z
  end.

(** [os.path.join(a, b)] *)
Definition join (a b : string) : string :=
  if startswith (String sep EmptyString) b then b
  else if orb (String.eqb a EmptyString) (endswith_sep a) then a ++ b
  else a ++ String sep EmptyString ++ b.
End OsPath.

(** ** What the module imports *)

(** Python builtins and standard library.  [py_float s] is [float(s)] for a
    string [s] ([None]: ValueError); [strptime s fmt] is
    [datetime.strptime(s, fmt).date()] ([None]: ValueError);
    [csv_reader lines delimiter] are the rows [csv.reader] yields for the
    rest of the file; [meta_ticks] is the number of iterations of the
    meta-header loop that start before the 30 second deadline.  The builtin
    [exec] acts on the frame of its caller and is declared with that frame,
    in [PyExec] below. *)
Class Python := {
  py_float : string -> option float;
  strptime : string -> string -> option date;
  csv_reader : list string -> string -> list (list string);
  abspath : string -> string;
  meta_ticks : nat
}.

(** pcse.util *)
Class PcseUtil := {
  angstrom : pyval -> float -> pyval -> float -> float -> result float;
  reference_ET : dict pyval -> result (float * float * float);
  check_angstromAB : float -> float -> result (float * float)
}.

(** pcse.base_classes: the container class and the store of the provider
    base class. *)
Class PcseBase := {
  container : Type;
  WeatherDataContainer : dict pyval -> result container;
  Store : Type;
  empty_store : Store;
  _store_WeatherDataContainer : container -> pyval -> Store -> result Store
}.

(** ** The provider object *)

(** What [_read_meta] sets on [self]. *)
Record station := mkstation {
  nodata_value : Z;
  description : list (string * pyval);
  longitude : float;
  latitude : float;
  elevation : float;
  angstA : float;
  angstB : float;
  has_sunshine : bool
}.

(** A record of [self.logger] or a line on standard output.  The row is kept
    instead of its formatted text. *)
Inductive message :=
| FailedReadingRow (row : list string)
| FailedWriteCache (cache_filename : string).

Section Provider.
Context {Py : Python} {Util : PcseUtil} {Base : PcseBase}.

Record provider := mkprovider {
  class_name : string;
  dateformat : string;
  ETmodel : string;
  fp_csv_fname : string;
  meta : option station;
  store : Store;
  warnings : list message;
  printed : list message
}.

Definition set_meta (self : provider) (m : station) : provider :=
  mkprovider (class_name self) (dateformat self) (ETmodel self)
    (fp_csv_fname self) (Some m) (store self) (warnings self) (printed self).
Definition set_ETmodel (self : provider) (model : string) : provider :=
  mkprovider (class_name self) (dateformat self) model
    (fp_csv_fname self) (meta self) (store self) (warnings self) (printed self).
Definition set_store (self : provider) (s : Store) : provider :=
  mkprovider (class_name self) (dateformat self) (ETmodel self)
    (fp_csv_fname self) (meta self) s (warnings self) (printed self).
Definition logger_warn (self : provider) (m : message) : provider :=
  mkprovider (class_name self) (dateformat self) (ETmodel self)
    (fp_csv_fname self) (meta self) (store self) (warnings self ++ [m])
    (printed self).
Definition print (self : provider) (m : message) : provider :=
  mkprovider (class_name self) (dateformat self) (ETmodel self)
    (fp_csv_fname self) (meta self) (store self) (warnings self)
    (printed self ++ [m]).

(** ** The file system *)

(** A file holds text lines or a pickled snapshot of the station metadata
    and the store. *)
Inductive content :=
| Text (lines : list string)
| Pickle (m : option station) (s : Store).

Record file := mkfile { st_mtime : float; data : content }.
Definition filesystem := string -> option file.

Definition exists_ (fs : filesystem) (p : string) : bool :=
  match fs p with Some _ => true | None => false end.

(** [os.stat(p).st_mtime] *)
Definition stat_mtime (fs : filesystem) (p : string) : result float :=
  match fs p with
  | Some f => Ok (st_mtime f)
  | None => Raise OSError
  end.

(** [open(p, newline='')], as the lines [readline] returns *)
Definition open (fs : filesystem) (p : string) : result (list string) :=
  match fs p with
  | Some (mkfile _ (Text ls)) => Ok ls
  | Some (mkfile _ (Pickle _ _)) => Raise (OtherException "UnicodeDecodeError")
  | None => Raise OSError
  end.

(** The frame of [_read_meta] as a header line executed by [exec] finds it
    and leaves it: the bindings of the dictionary of locals that the
    executed code reads and writes, the provider object [self], and the file
    object [csv_file], given by the lines that are still to be read from
    it. *)
Record frame := mkframe {
  f_locals : dict pyval;
  f_self : provider;
  f_file : list string
}.

Definition set_file (fr : frame) (csv_file : list string) : frame :=
  mkframe (f_locals fr) (f_self fr) csv_file.
End Provider.

(** [exec(line)] called in [_read_meta]: the executed code runs in the scope
    of the method, so it may bind names, change the provider object and read
    from the file object (or rewind it); it returns the frame it leaves, or
    raises.  What the executed code does to the rest of the process (module
    globals, builtins, the file system) is not part of the frame. *)
Class PyExec {Base : PcseBase} := {
  py_exec : string -> frame -> result frame
}.

(** The cache methods of the provider base class and the cache directory of
    pcse.settings.  [_load fs name self] restores the provider from the cache
    file or raises; [_dump self name fs] gives the file system after the
    write and the exception raised, if any. *)
Class PcseCache {Base : PcseBase} := {
  _load : filesystem -> string -> provider -> result provider;
  _dump : provider -> string -> filesystem -> filesystem * option exn;
  METEO_CACHE_DIR : string
}.

(** ** Builtin conversions on values *)

Section Builtins.
Context {Py : Python}.

(** [float(v)] *)
Definition float_of (v : pyval) : result float :=
  match v with
  | VStr s => match py_float s with Some x => Ok x | None => Raise ValueError end
  | VFloat x => Ok x
  | VInt z =>
      let x := PyFloat.of_Z z in
      if PyFloat.is_infinite x then Raise (OtherException "OverflowError")
      else Ok x
  | VBool b => Ok (PyFloat.of_Z (if b then 1 else 0))
  | VDate _ => Raise TypeError
  | VTuple _ => Raise TypeError
  end.

(** [bool(v)] *)
Definition bool_of (v : pyval) : bool :=
  match v with
  | VStr s => negb (String.eqb s EmptyString)
  | VFloat x => negb (PyFloat.eqb x PyFloat.zero)
  | VInt z => negb (z =? 0)%Z
  | VBool b => b
  | VDate _ => true
  | VTuple items => match items with [] => false | _ :: _ => true end
  end.

(** The value that [fmt % v] renders for a format [fmt] with one [%s]: [v]
    itself, or its only item when [v] is a tuple of one item; a tuple of
    another length is a TypeError.  The text rendered is the [str()] of that
    value. *)
Definition format_s (v : pyval) : result pyval :=
  match v with
  | VTuple [x] => Ok x
  | VTuple _ => Raise TypeError
  | _ => Ok v
  end.

(** [datetime.strptime(v, fmt).date()] *)
Definition strptime_date (v : pyval) (fmt : string) : result date :=
  match v with
  | VStr s => match strptime s fmt with Some d => Ok d | None => Raise ValueError end
  | _ => Raise TypeError
  end.

(** [v == float('NaN')].  IEEE equality for a float; an int never equals
    NaN; for a string or a date both [__eq__] give NotImplemented and the
    comparison falls back to identity. *)
Definition eq_NaN (v : pyval) : bool :=
  match v with
  | VFloat x => PyFloat.eqb x PyFloat.nan
  | _ => false
  end.

(** [lo < v] and [v < hi] for integer literals [lo], [hi] *)
Definition int_lt_val (lo : Z) (v : pyval) : result bool :=
  match v with
  | VFloat x => Ok (PyFloat.ltb (PyFloat.of_Z lo) x)
  | VInt z => Ok (lo <? z)%Z
  | VBool b => Ok (lo <? (if b then 1 else 0))%Z
  | _ => Raise TypeError
  end.
Definition val_lt_int (v : pyval) (hi : Z) : result bool :=
  match v with
  | VFloat x => Ok (PyFloat.ltb x (PyFloat.of_Z hi))
  | VInt z => Ok (z <? hi)%Z
  | VBool b => Ok ((if b then 1 else 0) <? hi)%Z
  | _ => Raise TypeError
  end.

(** The chained comparison [lo < v < hi] *)
Definition between (lo : Z) (v : pyval) (hi : Z) : result bool :=
  a <- int_lt_val lo v ;;
  if a then val_lt_int v hi else Ok false.
End Builtins.

(** ** Class attributes *)

Definition translator : dict (list string) :=
  [ ("DAY", ["w_date"; "DAY"]);
    ("IRRAD", ["srad"; "RADIATION"; "IRRAD"]);
    ("TMIN", ["tmin"; "TEMPERATURE_MIN"; "TMIN"]);
    ("TMAX", ["tmax"; "TEMPERATURE_MAX"; "TMAX"]);
    ("VAP", ["vprs_tx"; "VAPOURPRESSURE"; "VAP"]);
    ("WIND", ["wind"; "WINDSPEED"; "WIND"]);
    ("RAIN", ["rain"; "PRECIPITATION"; "RAIN"]);
    ("SNOWDEPTH", ["snowdepth"; "SNOWDEPTH"]) ].

(** The conversion lambdas *)
Inductive conversion :=
| NoConversion
| kJ_to_J
| mm_to_cm
| csvdate_to_date.

Definition obs_conversions : dict conversion :=
  [ ("TMAX", NoConversion);
    ("TMIN", NoConversion);
    ("IRRAD", kJ_to_J);
    ("DAY", csvdate_to_date);
    ("VAP", NoConversion);
    ("WIND", NoConversion);
    ("RAIN", mm_to_cm);
    ("SNOWDEPTH", NoConversion) ].

Section Conversions.
Context {Py : Python}.

(** [func(x)] *)
Definition call1 (func : conversion) (x : pyval) : result pyval :=
  match func with
  | NoConversion => y <- float_of x ;; Ok (VFloat y)
  | kJ_to_J => y <- float_of x ;; Ok (VFloat (PyFloat.mul y (PyFloat.of_Z 1000)))
  | mm_to_cm => y <- float_of x ;; Ok (VFloat (PyFloat.div y (PyFloat.of_Z 10)))
  | csvdate_to_date => Raise TypeError
  end.

(** [func(x, dateformat)] *)
Definition call2 (func : conversion) (x : pyval) (fmt : string) : result pyval :=
  match func with
  | csvdate_to_date => d <- strptime_date x fmt ;; Ok (VDate d)
  | _ => Raise TypeError
  end.
End Conversions.

(** ** The methods of CSVWeatherDataProvider *)

Section CSVWeatherDataProvider.
Context {Py : Python} {Util : PcseUtil} {Base : PcseBase}
        {Cache : PcseCache} {Exec : PyExec}.

(** *** _read_meta *)

Definition sentinel : string := "## Daily weather data".

(** [csv_file.readline()]: the next line, or the empty string at the end
    of the file. *)
Definition readline (csv_file : list string) : string * list string :=
  match csv_file with
  | [] => (EmptyString, [])
  | l :: rest => (l, rest)
  end.

(** The [while] loop; [ticks] iterations start before the deadline.  The
    next line is read from the file object as the executed line left it. *)
Fixpoint meta_loop (ticks : nat) (line : string) (fr : frame) : result frame :=
  if OsPath.startswith sentinel line then Ok fr
  else
    match ticks with
    | O => Raise RuntimeError
    | S ticks' =>
        fr' <- py_exec line fr ;;
        let (line', csv_file') := readline (f_file fr') in
        meta_loop ticks' line' (set_file fr' csv_file')
    end.

(** The assignments after the loop, from the bindings [locs]: each entry of
    the description is a lookup followed by the [%s] formatting, in the
    order of the list. *)
Definition station_of_locals (locs : dict pyval) : result station :=
  country <- (v <- dict_item "Country" locs ;; format_s v) ;;
  stat <- (v <- dict_item "Station" locs ;; format_s v) ;;
  descr <- (v <- dict_item "Description" locs ;; format_s v) ;;
  source <- (v <- dict_item "Source" locs ;; format_s v) ;;
  contact <- (v <- dict_item "Contact" locs ;; format_s v) ;;
  lon <- (v <- dict_item "Longitude" locs ;; float_of v) ;;
  lat <- (v <- dict_item "Latitude" locs ;; float_of v) ;;
  elev <- (v <- dict_item "Elevation" locs ;; float_of v) ;;
  a <- (v <- dict_item "AngstromA" locs ;; float_of v) ;;
  b <- (v <- dict_item "AngstromB" locs ;; float_of v) ;;
  '(a', b') <- check_angstromAB a b ;;
  sun <- dict_item "HasSunshine" locs ;;
  Ok (mkstation (-99)
        [ ("Country", country); ("Station", stat); ("Description", descr);
          ("Source", source); ("Contact", contact) ]
        lon lat elev a' b' (bool_of sun)).

Definition _read_meta (self : provider) (csv_file : list string)
  : result (provider * list string) :=
  fr <- meta_loop meta_ticks EmptyString (mkframe [] self csv_file) ;;
  m <- station_of_locals (f_locals fr) ;;
  Ok (set_meta (f_self fr) m, f_file fr).

(** *** _read_observations *)

(** The new label of a header item: the keys of [translator] whose alias
    list holds the item, joined. *)
Definition translate (item : string) : string :=
  String.concat EmptyString
    (map fst (filter (fun kv => existsb (String.eqb item) (snd kv)) translator)).

(** The loop [for label in d.keys()] *)
Fixpoint convert_fields (fmt : string) (labels : list string) (d : dict pyval)
  : result (dict pyval) :=
  match labels with
  | [] => Ok d
  | label :: labels' =>
      func <- dict_item label obs_conversions ;;
      x <- dict_item label d ;;
      y <- (if String.eqb label "DAY" then call2 func x fmt else call1 func x) ;;
      let d1 := dict_set label y d in
      v <- dict_item label d1 ;;
      if eq_NaN v && negb (String.eqb label "SNOWDEPTH")
      then Raise NoDataError
      else convert_fields fmt labels' d1
  end.

(** Keyword arguments given twice are a TypeError. *)
Definition kwargs (explicit d : dict pyval) : result (dict pyval) :=
  if existsb (fun k => dict_mem k explicit) (dict_keys d)
  then Raise TypeError
  else Ok (explicit ++ d)%list.

(** The sunshine-duration branch *)
Definition sunshine (m : station) (d : dict pyval) : result (dict pyval) :=
  if has_sunshine m then
    irrad <- dict_item "IRRAD" d ;;
    inside <- between 0 irrad 24 ;;
    if inside then
      day_ <- dict_item "DAY" d ;;
      irrad' <- dict_item "IRRAD" d ;;
      r <- angstrom day_ (latitude m) irrad' (angstA m) (angstB m) ;;
      Ok (dict_set "IRRAD" (VFloat r) d)
    else Ok d
  else Ok d.

(** The arguments of the [reference_ET] call *)
Definition reference_ET_args (m : station) (d : dict pyval)
  : result (dict pyval) :=
  kwargs [ ("LAT", VFloat (latitude m)); ("ELEV", VFloat (elevation m));
           ("ANGSTA", VFloat (angstA m)); ("ANGSTB", VFloat (angstB m)) ] d.

(** Reference ET and its conversion to cm/day *)
Definition evapotranspiration (m : station) (d : dict pyval)
  : result (dict pyval) :=
  args <- reference_ET_args m d ;;
  '(e0, es0, et0) <- reference_ET args ;;
  let d1 := dict_set "E0" (VFloat (PyFloat.div e0 (PyFloat.of_Z 10))) d in
  let d2 := dict_set "ES0" (VFloat (PyFloat.div es0 (PyFloat.of_Z 10))) d1 in
  Ok (dict_set "ET0" (VFloat (PyFloat.div et0 (PyFloat.of_Z 10))) d2).

(** [dict(zip(header, row))] without the empty key *)
Definition row_dict (header row : list string) : dict pyval :=
  let d := dict_of_pairs (zip header (map VStr row)) in
  if dict_mem EmptyString d then dict_del EmptyString d else d.

(** [self.latitude] and the like before [_read_meta] or [_load] has set
    them: AttributeError. *)
Definition get_meta (self : provider) : result station :=
  match meta self with
  | Some m => Ok m
  | None => Raise (OtherException "AttributeError")
  end.

(** The [else] branch of the [try] body: one data row. *)
Definition data_row (self : provider) (fmt : string) (header row : list string)
  : result provider :=
  let d := row_dict header row in
  d1 <- convert_fields fmt (dict_keys d) d ;;
  m <- get_meta self ;;
  d2 <- sunshine m d1 ;;
  d3 <- evapotranspiration m d2 ;;
  args <- kwargs [ ("LAT", VFloat (latitude m)); ("LON", VFloat (longitude m));
                   ("ELEV", VFloat (elevation m)) ] d3 ;;
  wdc <- WeatherDataContainer args ;;
  day_ <- dict_item "DAY" d3 ;;
  s <- _store_WeatherDataContainer wdc day_ (store self) ;;
  Ok (set_store self s).

(** The handler [except ValueError]: warn and print. *)
Definition skip_row (self : provider) (row : list string) : provider :=
  print (logger_warn self (FailedReadingRow row)) (FailedReadingRow row).

(** The [for row in obs] loop.  [header] is [None] while [_headerrow] is
    true.  The handler [except NoDataError] formats its message with [%S],
    which is a ValueError raised outside the [try] body. *)
Fixpoint read_rows (fmt : string) (header : option (list string))
  (rows : list (list string)) (self : provider) : result provider :=
  match rows with
  | [] => Ok self
  | row :: rows' =>
      match header with
      | None => read_rows fmt (Some (map translate row)) rows' self
      | Some h =>
          match data_row self fmt h row with
          | Ok self' => read_rows fmt header rows' self'
          | Raise e =>
              if is_ValueError e then read_rows fmt header rows' (skip_row self row)
              else if is_NoDataError e then Raise ValueError
              else Raise e
          end
      end
  end.

Definition _read_observations (self : provider) (csv_file : list string)
  (delimiter fmt : string) : result provider :=
  read_rows fmt None (csv_reader csv_file delimiter) self.

(** The rows the loop skips, in the order of the file: the data rows whose
    body raises ValueError, each tried on the provider as the rows stored
    before it have left it. *)
Fixpoint skipped_rows (fmt : string) (header : option (list string))
  (rows : list (list string)) (self : provider) : list (list string) :=
  match rows with
  | [] => []
  | row :: rows' =>
      match header with
      | None => skipped_rows fmt (Some (map translate row)) rows' self
      | Some h =>
          match data_row self fmt h row with
          | Ok self' => skipped_rows fmt header rows' self'
          | Raise e =>
              if is_ValueError e then row :: skipped_rows fmt header rows' self
              else []
          end
      end
  end.

(** *** The cache *)

Definition _get_cache_filename (self : provider) (csv_fname : string) : string :=
  let basename := OsPath.basename csv_fname in
  let (filename, ext) := OsPath.splitext basename in
  let tmp := class_name self ++ "_" ++ filename ++ ".cache" in
  OsPath.join METEO_CACHE_DIR tmp.

(** [None] is Python's None. *)
Definition _find_cache_file (fs : filesystem) (self : provider)
  (csv_fname : string) : result (option string) :=
  let cache_filename := _get_cache_filename self csv_fname in
  if exists_ fs cache_filename then
    cache_date <- stat_mtime fs cache_filename ;;
    csv_date <- stat_mtime fs csv_fname ;;
    if PyFloat.ltb csv_date cache_date then Ok (Some cache_filename)
    else Ok None
  else Ok None.

Definition _load_cache_file (fs : filesystem) (self : provider)
  (csv_fname : string) : result (bool * provider) :=
  found <- _find_cache_file fs self csv_fname ;;
  match found with
  | None => Ok (false, self)
  | Some cache_filename =>
      self' <- _load fs cache_filename self ;;
      Ok (true, self')
  end.

Definition _write_cache_file (fs : filesystem) (self : provider)
  (csv_fname : string) : result (provider * filesystem) :=
  let cache_filename := _get_cache_filename self csv_fname in
  match _dump self cache_filename fs with
  | (fs', None) => Ok (self, fs')
  | (fs', Some OSError) => Ok (logger_warn self (FailedWriteCache cache_filename), fs')
  | (_, Some e) => Raise e
  end.

(** *** __init__ *)

(** [self] after the base-class constructor and the first assignments;
    [cls] is the name of the class that is instantiated. *)
Definition fresh (cls fmt model fp : string) : provider :=
  mkprovider cls fmt model fp None empty_store [] [].

(** The body of the [with open(...)] block: the full parse of the file. *)
Definition parse_source (fs : filesystem) (self : provider)
  (csv_fname delimiter fmt : string) : result (provider * filesystem) :=
  csv_file <- open fs (abspath csv_fname) ;;
  '(self2, csv_file') <- _read_meta self csv_file ;;
  self3 <- _read_observations self2 csv_file' delimiter fmt ;;
  _write_cache_file fs self3 (fp_csv_fname self3).

Definition __init__ (fs : filesystem) (cls csv_fname delimiter fmt model : string)
  : result (provider * filesystem) :=
  let self := fresh cls fmt model (abspath csv_fname) in
  if negb (exists_ fs (fp_csv_fname self))
  then Raise (PCSEError "Cannot find weather file")
  else
    '(loaded, self1) <- _load_cache_file fs self (fp_csv_fname self) ;;
    if negb loaded then parse_source fs self1 csv_fname delimiter fmt
    else Ok (self1, fs).

(** ** Notions used by the statements *)

(** The provider a construction returns, without the file system. *)
Definition constructed (r : result (provider * filesystem)) : result provider :=
  p <- r ;; Ok (fst p).

(** [os.utime]: the file at [p] gets the modification time [t]. *)
Definition utime (fs : filesystem) (p : string) (t : float) : filesystem :=
  fun q =>
    if String.eqb q p
    then match fs p with
         | Some f => Some (mkfile t (data f))
         | None => None
         end
    else fs q.




(** The Angstrom call of a row with converted fields [d] is reached and
    raises [e]. *)
Definition angstrom_raises (m : station) (d : dict pyval) (e : exn) : Prop :=
  has_sunshine m = true /\
  exists irrad day_,
    dict_get "IRRAD" d = Some irrad /\ between 0 irrad 24 = Ok true /\
    dict_get "DAY" d = Some day_ /\
    angstrom day_ (latitude m) irrad (angstA m) (angstB m) = Raise e.

(** The reference-ET call of a row with converted fields [d] is reached
    and raises [e]. *)
Definition reference_ET_raises (m : station) (d : dict pyval) (e : exn) : Prop :=
  exists d2 args,
    sunshine m d = Ok d2 /\ reference_ET_args m d2 = Ok args /\
    reference_ET args = Raise e.

(** One round of the conversion loop on the value [x] of [label], the
    table lookup included. *)
Definition converted (fmt label : string) (x : pyval) : result pyval :=
  func <- dict_item label obs_conversions ;;
  if String.eqb label "DAY" then call2 func x fmt else call1 func x.

(** The fixed per-field conversion in the words of the specification:
    DAY is parsed with the date format, IRRAD is the float times 1000,
    RAIN the float divided by 10, the other five fields the float. *)
Definition spec_conversion (fmt label text : string) : result pyval :=
  let parsed := match py_float text with
                | Some x => Ok x
                | None => Raise ValueError
                end in
  if String.eqb label "DAY" then
    match strptime text fmt with
    | Some d => Ok (VDate d)
    | None => Raise ValueError
    end
  else if String.eqb label "IRRAD" then
    x <- parsed ;; Ok (VFloat (PyFloat.mul x (PyFloat.of_Z 1000)))
  else if String.eqb label "RAIN" then
    x <- parsed ;; Ok (VFloat (PyFloat.div x (PyFloat.of_Z 10)))
  else if existsb (String.eqb label) ["TMIN"; "TMAX"; "VAP"; "WIND"; "SNOWDEPTH"]
  then x <- parsed ;; Ok (VFloat x)
  else Raise (KeyError label).
End CSVWeatherDataProvider.

(** The canonical field names: the keys of [translator]. *)
Definition canonical_fields : list string := dict_keys translator.

(** The names [_read_meta] looks up in the bindings, in the order of the
    lookups. *)
Definition meta_keys : list string :=
  [ "Country"; "Station"; "Description"; "Source"; "Contact"; "Longitude";
    "Latitude"; "Elevation"; "AngstromA"; "AngstromB"; "HasSunshine" ].

(** ** A sample environment

    Small executable stand-ins for the imported functions, used to run the
    provider on concrete files.  They cover a fragment of what CPython
    accepts: outside the fragment described at each function they report an
    error. *)

Module Sample.
Definition is_digit (c : ascii) : bool :=
  let n := nat_of_ascii c in (48 <=? n)%nat && (n <=? 57)%nat.

Definition is_space (c : ascii) : bool :=
  let n := nat_of_ascii c in
  (n =? 32)%nat || (n =? 9)%nat || (n =? 10)%nat || (n =? 13)%nat.

Definition lower (c : ascii) : ascii :=
  let n := nat_of_ascii c in
  if (65 <=? n)%nat && (n <=? 90)%nat then ascii_of_nat (n + 32) else c.

Fixpoint map_string (f : ascii -> ascii) (s : string) : string :=
  match s with
  | EmptyString => EmptyString
  | String c r => String (f c) (map_string f r)
  end.

Fixpoint lstrip (s : string) : string :=
  match s with
  | String c r => if is_space c then lstrip r else s
  | EmptyString => EmptyString
  end.

Fixpoint rev_string (s acc : string) : string :=
  match s with
  | EmptyString => acc
  | String c r => rev_string r (String c acc)
  end.

Definition rstrip (s : string) : string :=
  rev_string (lstrip (rev_string s EmptyString)) EmptyString.

Definition strip (s : string) : string := rstrip (lstrip s).

(** [s.split(c)] *)
Fixpoint split (c : ascii) (s : string) : list string :=
  match s with
  | EmptyString => [EmptyString]
  | String a r =>
      if Ascii.eqb a c then EmptyString :: split c r
      else match split c r with
           | x :: xs => String a x :: xs
           | [] => [String a EmptyString]
           end
  end.

(** The value of a string of decimal digits *)
Fixpoint digits (s : string) (acc : Z) : option Z :=
  match s with
  | EmptyString => Some acc
  | String c r =>
      if is_digit c
      then digits r (10 * acc + Z.of_nat (nat_of_ascii c - 48))
      else None
  end.

(** An unsigned decimal [ddd], [ddd.ddd], [ddd.] or [.ddd] with fewer than
    2^53 as digit value and at most 22 fraction digits: mantissa and power
    of ten are both binary64 numbers, so one correctly rounded division
    gives the nearest float. *)
Definition unsigned_decimal (s : string) : option float :=
  match split "."%char s with
  | [ip] =>
      if String.eqb ip EmptyString then None
      else match digits ip 0 with
           | Some m => if (m <? 2 ^ 53)%Z then Some (PyFloat.of_Z m) else None
           | None => None
           end
  | [ip; fp] =>
      if String.eqb ip EmptyString && String.eqb fp EmptyString then None
      else match digits (ip ++ fp) 0 with
           | Some m =>
               let k := String.length fp in
               if (m <? 2 ^ 53)%Z && (k <=? 22)%nat
               then Some (PyFloat.div (PyFloat.of_Z m)
                            (PyFloat.of_Z (10 ^ Z.of_nat k)))
               else None
           | None => None
           end
  | _ => None
  end.

Definition unsigned_float (s : string) : option float :=
  let l := map_string lower s in
  if String.eqb l "nan" then Some PyFloat.nan
  else if String.eqb l "inf" || String.eqb l "infinity"
  then Some (S754_infinity false)
  else unsigned_decimal s.

(** [float(s)] on optionally signed decimals without exponent, [nan] and
    [inf], surrounded by white space. *)
Definition float_of_string (s : string) : option float :=
  match strip s with
  | String "-"%char r => option_map SFopp (unsigned_float r)
  | String "+"%char r => unsigned_float r
  | t => unsigned_float t
  end.

Definition is_leap (y : Z) : bool :=
  ((y mod 4 =? 0) && negb (y mod 100 =? 0) || (y mod 400 =? 0))%Z.

Definition days_in_month (y m : Z) : Z :=
  if (m =? 2)%Z then (if is_leap y then 29 else 28)
  else if (m =? 4)%Z || (m =? 6)%Z || (m =? 9)%Z || (m =? 11)%Z then 30
  else 31.

(** [strptime(s, '%Y%m%d').date()] on strings of eight digits and on
    strings that do not start with four digits; other formats are not
    covered. *)
Definition strptime_Ymd (s fmt : string) : option date :=
  if negb (String.eqb fmt "%Y%m%d") then None
  else if negb (String.length s =? 8)%nat then None
  else
    match digits (OsPath.take 4 s) 0,
          digits (OsPath.take 2 (OsPath.drop 4 s)) 0,
          digits (OsPath.drop 6 s) 0 with
    | Some y, Some m, Some d =>
        if ((1 <=? y) && (1 <=? m) && (m <=? 12) && (1 <=? d)
            && (d <=? days_in_month y m))%Z
        then Some (mkdate y m d) else None
    | _, _, _ => None
    end.

Definition is_name_start (c : ascii) : bool :=
  let n := nat_of_ascii c in
  (65 <=? n)%nat && (n <=? 90)%nat || (97 <=? n)%nat && (n <=? 122)%nat
  || (n =? 95)%nat.

Fixpoint all_chars (f : ascii -> bool) (s : string) : bool :=
  match s with
  | EmptyString => true
  | String c r => f c && all_chars f r
  end.

Definition is_name (s : string) : bool :=
  match s with
  | EmptyString => false
  | String c r =>
      is_name_start c && all_chars (fun a => is_name_start a || is_digit a) r
  end.

(** A quoted string without quote or backslash inside *)
Definition quoted (q : ascii) (s : string) : option string :=
  match s with
  | String a r =>
      match rev_string r EmptyString with
      | String b body_rev =>
          if Ascii.eqb a q && Ascii.eqb b q
             && all_chars (fun c => negb (Ascii.eqb c q)
                                    && negb (Ascii.eqb c (ascii_of_nat 92))) body_rev
          then Some (rev_string body_rev EmptyString)
          else None
      | EmptyString => None
      end
  | EmptyString => None
  end.

(** A literal: True, False, a quoted string, an integer, a decimal *)
Definition literal (s : string) : option pyval :=
  if String.eqb s "True" then Some (VBool true)
  else if String.eqb s "False" then Some (VBool false)
  else match quoted "'"%char s with
  | Some t => Some (VStr t)
  | None =>
    match quoted (ascii_of_nat 34) s with
    | Some t => Some (VStr t)
    | None =>
      match s with
      | String "-"%char r =>
          match digits r 0 with
          | Some z => if String.eqb r EmptyString then None else Some (VInt (- z))
          | None => option_map (fun x => VFloat (SFopp x)) (unsigned_decimal r)
          end
      | _ =>
          match digits s 0 with
          | Some z => if String.eqb s EmptyString then None else Some (VInt z)
          | None => option_map VFloat (unsigned_decimal s)
          end
      end
    end
  end.
End Sample.

Module SampleEnv.
Import Sample.

(** [exec(line)] on an empty or blank line, a comment line and an
    assignment [Name = literal]; anything else is reported as a
    SyntaxError. *)
Definition exec_line (line : string) (locs : dict pyval) : result (dict pyval) :=
  let body := rstrip line in
  if String.eqb body EmptyString then Ok locs
  else if OsPath.startswith "#" body then Ok locs
  else
    match split "="%char body with
    | [lhs; rhs] =>
        if is_name (rstrip lhs) then
          match literal (strip rhs) with
          | Some v => Ok (dict_set (rstrip lhs) v locs)
          | None => Raise (OtherException "SyntaxError")
          end
        else Raise (OtherException "SyntaxError")
    | _ => Raise (OtherException "SyntaxError")
    end.

(** [csv.reader] on lines without quote characters: an empty line gives an
    empty row, any other line is split at the delimiter. *)
Definition split_rows (lines : list string) (delimiter : string)
  : list (list string) :=
  map (fun l =>
         let body := rstrip l in
         if String.eqb body EmptyString then []
         else match delimiter with
              | String c EmptyString => split c body
              | _ => [body]
              end) lines.

(** Paths are absolute already or relative to [/cwd]. *)
Definition abspath_cwd (p : string) : string :=
  if OsPath.startswith "/" p then p else "/cwd/" ++ p.

#[export] Instance python : Python := {
  py_float := float_of_string;
  strptime := strptime_Ymd;
  csv_reader := split_rows;
  abspath := abspath_cwd;
  meta_ticks := 1000
}.

Definition required : list string :=
  ["DAY"; "TMIN"; "TMAX"; "IRRAD"; "VAP"; "WIND"].

(** Stand-ins for the physical formulas: a fixed flux and fixed
    evaporation rates; [reference_ET] has six required arguments. *)
Definition angstrom_fixed (day_ : pyval) (lat : float) (ssd : pyval)
  (a b : float) : result float := Ok (PyFloat.of_Z 7500000).

Definition reference_ET_fixed (args : dict pyval)
  : result (float * float * float) :=
  if forallb (fun k => dict_mem k args) required
  then Ok (PyFloat.of_Z 30, PyFloat.of_Z 20, PyFloat.of_Z 10)
  else Raise TypeError.

#[export] Instance util : PcseUtil := {
  angstrom := angstrom_fixed;
  reference_ET := reference_ET_fixed;
  check_angstromAB := fun a b => Ok (a, b)
}.

(** A reference ET that divides by zero, and one with a math domain
    error. *)
Definition util_zero_division : PcseUtil := {|
  angstrom := angstrom_fixed;
  reference_ET := fun _ => Raise (OtherException "ZeroDivisionError");
  check_angstromAB := fun a b => Ok (a, b)
|}.
Definition util_domain_error : PcseUtil := {|
  angstrom := angstrom_fixed;
  reference_ET := fun _ => Raise ValueError;
  check_angstromAB := fun a b => Ok (a, b)
|}.

(** A reference ET that follows its ETMODEL argument, PM when it is not
    given. *)
Definition reference_ET_by_model (args : dict pyval)
  : result (float * float * float) :=
  match dict_get "ETMODEL" args with
  | Some (VStr "P") => Ok (PyFloat.of_Z 30, PyFloat.of_Z 20, PyFloat.of_Z 40)
  | _ => Ok (PyFloat.of_Z 30, PyFloat.of_Z 20, PyFloat.of_Z 10)
  end.
Definition util_by_model : PcseUtil := {|
  angstrom := angstrom_fixed;
  reference_ET := reference_ET_by_model;
  check_angstromAB := fun a b => Ok (a, b)
|}.

(** Any Angstrom function next to the fixed reference ET, and the
    Angstrom function that returns its sunshine-hours argument. *)
Definition util_with_angstrom
  (f : pyval -> float -> pyval -> float -> float -> result float) : PcseUtil := {|
  angstrom := f;
  reference_ET := reference_ET_fixed;
  check_angstromAB := fun a b => Ok (a, b)
|}.
Definition angstrom_echo (day_ : pyval) (lat : float) (ssd : pyval)
  (a b : float) : result float :=
  match ssd with
  | VFloat x => Ok x
  | _ => Raise TypeError
  end.

(** The container keeps its keyword arguments; the store is the list of
    stored containers with their dates, latest last. *)
#[export] Instance base : PcseBase := {
  container := dict pyval;
  WeatherDataContainer := fun args => Ok args;
  Store := list (pyval * dict pyval);
  empty_store := [];
  _store_WeatherDataContainer := fun wdc day_ s => Ok (s ++ [(day_, wdc)])%list
}.

Definition cache_dir : string := "/home/user/.pcse/meteo_cache".

Definition load_pickle (fs : filesystem) (name : string) (self : provider)
  : result provider :=
  match fs name with
  | Some (mkfile _ (Pickle (Some m) s)) => Ok (set_store (set_meta self m) s)
  | Some _ => Raise (OtherException "UnpicklingError")
  | None => Raise OSError
  end.

(** The dump succeeds and stamps the cache one second after the CSV file. *)
Definition dump_pickle (self : provider) (name : string) (fs : filesystem)
  : filesystem * option exn :=
  let t := match fs (fp_csv_fname self) with
           | Some f => SFadd PyFloat.prec PyFloat.emax (st_mtime f) (PyFloat.of_Z 1)
           | None => PyFloat.zero
           end in
  (fun p => if String.eqb p name
            then Some (mkfile t (Pickle (meta self) (store self)))
            else fs p, None).

#[export] Instance cache : PcseCache := {
  _load := load_pickle;
  _dump := dump_pickle;
  METEO_CACHE_DIR := cache_dir
}.

(** [exec(line)] in the frame of [_read_meta]: the statement
    [csv_file.readline()] reads one line from the file object; the lines of
    [exec_line] act on the bindings. *)
Definition exec_frame (line : string) (fr : frame) : result frame :=
  if String.eqb (rstrip line) "csv_file.readline()"
  then Ok (set_file fr (snd (readline (f_file fr))))
  else
    match exec_line line (f_locals fr) with
    | Ok locs => Ok (mkframe locs (f_self fr) (f_file fr))
    | Raise e => Raise e
    end.

#[export] Instance exec_fragment : PyExec := {
  py_exec := exec_frame
}.

(** A cache directory that cannot be written: the dump raises OSError and
    leaves the file system as it is. *)
Definition cache_read_only : PcseCache := {|
  _load := load_pickle;
  _dump := fun _ _ fs => (fs, Some OSError);
  METEO_CACHE_DIR := cache_dir
|}.

(** A weather file with sunshine hours in the IRRAD column *)
Definition meta_assignments : list string :=
  [ "Country = 'Netherlands'";
    "Station = 'Wageningen'";
    "Description = 'Observed data'";
    "Source = 'Meteorology and Air Quality Group'";
    "Contact = 'Peter Uithol'";
    "Longitude = 5.67";
    "Latitude = 52.0";
    "Elevation = 7";
    "AngstromA = 0.25";
    "AngstromB = 0.5";
    "HasSunshine = True" ].

Definition meta_lines : list string :=
  (meta_assignments ++ ["## Daily weather data"])%list.

Definition header_line : string := "DAY,IRRAD,TMIN,TMAX,VAP,WIND,RAIN".

Definition weather_file (rows : list string) : file :=
  mkfile (PyFloat.of_Z 100) (Text (meta_lines ++ header_line :: rows)).

Definition add_file (fs : filesystem) (path : string) (f : file) : filesystem :=
  fun p => if String.eqb p path then Some f else fs p.

Definition disk (path : string) (f : file) : filesystem :=
  add_file (fun _ => None) path f.

Definition cache_of_w : string :=
  "/home/user/.pcse/meteo_cache/CSVWeatherDataProvider_w.cache".

(** The weather file and a newer cache file that is not a pickle *)
Definition corrupt_cache_disk : filesystem :=
  add_file (disk "/data/w.csv" (weather_file ["20100101,8.5,2.0,10.0,1.0,3.0,0.0"]))
    cache_of_w (mkfile (PyFloat.of_Z 200) (Text ["garbage"])).

Definition construct_with (U : PcseUtil) (fs : filesystem)
  (csv_fname model : string) : result (provider * filesystem) :=
  __init__ (Util := U) fs "CSVWeatherDataProvider" csv_fname "," "%Y%m%d" model.

Definition construct : filesystem -> string -> string
                       -> result (provider * filesystem) :=
  construct_with util.

(** The values stored under [label], one per stored day, and the
    warnings, after the construction [r]. *)
Definition stored_field (label : string) (r : result (provider * filesystem))
  : result (list (pyval * option pyval) * list message) :=
  p <- r ;;
  Ok (map (fun e => (fst e, dict_get label (snd e))) (store (fst p)),
      warnings (fst p)).
End SampleEnv.

(** * Properties *)

Import SampleEnv.

(** ** Dictionaries *)

Section DictFacts.
Context {V : Type}.
Implicit Types (d : dict V) (k : string) (v : V).

Lemma dict_get_set_same k v d : dict_get k (dict_set k v d) = Some v.
Proof.
  induction d as [|[k' v'] d IH]; simpl.
  - now rewrite String.eqb_refl.
  - destruct (String.eqb k k') eqn:E; simpl; rewrite E; auto.
Qed.

Lemma dict_get_set_other k k' v d :
  k' <> k -> dict_get k' (dict_set k v d) = dict_get k' d.
Proof.
  intros N. induction d as [|[k0 v0] d IH]; simpl.
  - apply String.eqb_neq in N. now rewrite N.
  - destruct (String.eqb k k0) eqn:E; simpl.
    + apply String.eqb_eq in E. subst k0.
      apply String.eqb_neq in N. now rewrite N.
    + now rewrite IH.
Qed.

Lemma dict_keys_set_In k k' v d :
  In k' (dict_keys (dict_set k v d)) -> k' = k \/ In k' (dict_keys d).
Proof.
  unfold dict_keys. induction d as [|[k0 v0] d IH]; simpl.
  - intros [H|[]]; auto.
  - destruct (String.eqb k k0) eqn:E; simpl; intros [H|H]; auto.
    destruct (IH H); auto.
Qed.

Lemma dict_keys_set_NoDup k v d :
  NoDup (dict_keys d) -> NoDup (dict_keys (dict_set k v d)).
Proof.
  unfold dict_keys. induction d as [|[k0 v0] d IH]; simpl; intros H.
  - constructor; [intros []|constructor].
  - inversion H as [|? ? Hn Hd]; subst.
    destruct (String.eqb k k0) eqn:E; simpl.
    + constructor; assumption.
    + constructor; auto. intros Hin.
      destruct (dict_keys_set_In k k0 v d Hin) as [->|Hin']; auto.
      now rewrite String.eqb_refl in E.
Qed.

Lemma dict_keys_del_In k k' d :
  In k' (dict_keys (dict_del k d)) -> k' <> k /\ In k' (dict_keys d).
Proof.
  unfold dict_keys. induction d as [|[k0 v0] d IH]; simpl.
  - intros [].
  - destruct (String.eqb k k0) eqn:E; simpl.
    + intros H. destruct (IH H). auto.
    + intros [H|H].
      * subst k0. split; auto. intros ->. now rewrite String.eqb_refl in E.
      * destruct (IH H). auto.
Qed.

Lemma dict_keys_del_NoDup k d :
  NoDup (dict_keys d) -> NoDup (dict_keys (dict_del k d)).
Proof.
  unfold dict_keys. induction d as [|[k0 v0] d IH]; simpl; intros H.
  - constructor.
  - inversion H as [|? ? Hn Hd]; subst.
    destruct (String.eqb k k0) eqn:E; simpl; auto.
    constructor; auto. intros Hin.
    now destruct (dict_keys_del_In k k0 d Hin).
Qed.

Lemma dict_get_del_other k k' d :
  k' <> k -> dict_get k' (dict_del k d) = dict_get k' d.
Proof.
  intros N. induction d as [|[k0 v0] d IH]; simpl; auto.
  destruct (String.eqb k k0) eqn:E; simpl.
  - apply String.eqb_eq in E. subst k0.
    apply String.eqb_neq in N. now rewrite N.
  - now rewrite IH.
Qed.

Lemma dict_get_In k d x : dict_get k d = Some x -> In k (dict_keys d).
Proof.
  unfold dict_keys. induction d as [|[k0 v0] d IH]; simpl; [discriminate|].
  destruct (String.eqb k k0) eqn:E; auto.
  apply String.eqb_eq in E. auto.
Qed.

Lemma dict_In_get k d : In k (dict_keys d) -> exists x, dict_get k d = Some x.
Proof.
  unfold dict_keys. induction d as [|[k0 v0] d IH]; simpl; [intros []|].
  destruct (String.eqb k k0) eqn:E; eauto.
  intros [H|H]; auto. subst. now rewrite String.eqb_refl in E.
Qed.

(** Properties of the values are kept by [dict(pairs)]. *)
Lemma dict_of_pairs_ind (P : string -> V -> Prop) (l : list (string * V)) :
  Forall (fun kv => P (fst kv) (snd kv)) l ->
  NoDup (dict_keys (dict_of_pairs l)) /\
  forall k x, dict_get k (dict_of_pairs l) = Some x -> P k x.
Proof.
  unfold dict_of_pairs.
  assert (G : forall d,
    NoDup (dict_keys d) -> (forall k x, dict_get k d = Some x -> P k x) ->
    Forall (fun kv => P (fst kv) (snd kv)) l ->
    NoDup (dict_keys (fold_left (fun d kv => dict_set (fst kv) (snd kv) d) l d)) /\
    forall k x, dict_get k (fold_left (fun d kv => dict_set (fst kv) (snd kv) d) l d)
                = Some x -> P k x).
  { induction l as [|[k0 v0] l IH]; simpl; intros d Hd Hp Hl; [auto|].
    inversion Hl; subst. apply IH; auto.
    - now apply dict_keys_set_NoDup.
    - intros k x. destruct (string_dec k k0) as [->|N].
      + rewrite dict_get_set_same. intros [= <-]. assumption.
      + rewrite dict_get_set_other by assumption. apply Hp. }
  intros Hl. apply G; auto.
  - constructor.
  - discriminate.
Qed.
End DictFacts.

(** ** Floats *)

Lemma ltb_irrefl (x : float) : PyFloat.ltb x x = false.
Proof.
  unfold PyFloat.ltb, SFltb.
  destruct x as [s|s| |s m e]; try destruct s; simpl; try reflexivity;
    rewrite Z.compare_refl, Pos.compare_cont_refl; reflexivity.
Qed.

Lemma eqb_nan (x : float) : PyFloat.eqb x PyFloat.nan = false.
Proof. destruct x as [s|s| |s m e]; try destruct s; reflexivity. Qed.

(** ** Paths *)

Lemma rfind_nonneg_or_absent c p :
  (OsPath.rfind c p = -1 \/ 0 <= OsPath.rfind c p)%Z.
Proof.
  induction p as [|a r IH]; simpl; [now left|].
  destruct (0 <=? OsPath.rfind c r)%Z eqn:E.
  - apply Z.leb_le in E. right. lia.
  - destruct (Ascii.eqb a c); [right; lia | now left].
Qed.

Lemma rfind_sep_directory dir name :
  OsPath.rfind OsPath.sep name = (-1)%Z ->
  OsPath.rfind OsPath.sep (dir ++ String OsPath.sep name)
  = Z.of_nat (String.length dir).
Proof.
  intros H. induction dir as [|a r IH].
  - simpl. rewrite H. reflexivity.
  - cbn [append OsPath.rfind String.length]. rewrite IH.
    assert (E : (0 <=? Z.of_nat (String.length r))%Z = true)
      by (apply Z.leb_le; lia).
    rewrite E. lia.
Qed.

Lemma drop_directory dir c name :
  OsPath.drop (S (String.length dir)) (dir ++ String c name) = name.
Proof. induction dir as [|a r IH]; simpl; auto. Qed.

Lemma basename_directory dir name :
  OsPath.rfind OsPath.sep name = (-1)%Z ->
  OsPath.basename (dir ++ "/" ++ name) = name.
Proof.
  intros H. unfold OsPath.basename.
  change (dir ++ "/" ++ name) with (dir ++ String OsPath.sep name).
  rewrite rfind_sep_directory by assumption.
  replace (Z.to_nat (Z.of_nat (String.length dir) + 1))
    with (S (String.length dir)) by lia.
  apply drop_directory.
Qed.

(** ** The cache *)

Section CacheFacts.
Context {Py : Python} {Util : PcseUtil} {Base : PcseBase}
        {Cache : PcseCache}.

Lemma _get_cache_filename_basename (self1 self2 : provider) p1 p2 :
  class_name self1 = class_name self2 ->
  OsPath.basename p1 = OsPath.basename p2 ->
  _get_cache_filename self1 p1 = _get_cache_filename self2 p2.
Proof. unfold _get_cache_filename. intros -> ->. reflexivity. Qed.

Lemma _find_cache_file_cases fs (self : provider) csv_fname src :
  fs csv_fname = Some src ->
  _find_cache_file fs self csv_fname =
  match fs (_get_cache_filename self csv_fname) with
  | Some c =>
      if PyFloat.ltb (st_mtime src) (st_mtime c)
      then Ok (Some (_get_cache_filename self csv_fname))
      else Ok None
  | None => Ok None
  end.
Proof.
  intros Hsrc. unfold _find_cache_file, exists_, stat_mtime.
  destruct (fs (_get_cache_filename self csv_fname)) as [c|]; [|reflexivity].
  rewrite Hsrc. reflexivity.
Qed.

Lemma utime_source fs p t src :
  fs p = Some src -> utime fs p t p = Some (mkfile t (data src)).
Proof. intros H. unfold utime. now rewrite String.eqb_refl, H. Qed.

(** After the source was touched at a time the cache is not newer than,
    no cache file is found. *)
Lemma _find_cache_file_touched fs (self : provider) csv_fname src t :
  fs csv_fname = Some src ->
  (forall c, fs (_get_cache_filename self csv_fname) = Some c ->
             PyFloat.ltb t (st_mtime c) = false) ->
  _find_cache_file (utime fs csv_fname t) self csv_fname = Ok None.
Proof.
  intros Hsrc Hold.
  rewrite (_find_cache_file_cases _ _ _ _ (utime_source _ _ t _ Hsrc)).
  unfold utime at 1.
  destruct (String.eqb (_get_cache_filename self csv_fname) csv_fname).
  - rewrite Hsrc. simpl. now rewrite ltb_irrefl.
  - destruct (fs (_get_cache_filename self csv_fname)) as [c|] eqn:Ec; auto.
    simpl. now rewrite (Hold c eq_refl).
Qed.
End CacheFacts.

(** C10: the cache file name is built from the class name and the base name
    of the source path without its extension, never from the directory: the
    same file name in two directories gives one cache file name, and a
    provider for the second file loads the cache artifact written for the
    first whenever that artifact is newer than the second file. *)
Theorem C10_cache_filename_ignores_directory :
  forall (Py : Python) (Util : PcseUtil) (Base : PcseBase) (Cache : PcseCache)
         (self other : provider) (dir1 dir2 name : string),
    class_name self = class_name other ->
    OsPath.rfind OsPath.sep name = (-1)%Z ->
    _get_cache_filename self (dir1 ++ "/" ++ name)
    = OsPath.join METEO_CACHE_DIR
        (class_name self ++ "_" ++ fst (OsPath.splitext name) ++ ".cache")
    /\ _get_cache_filename self (dir1 ++ "/" ++ name)
       = _get_cache_filename other (dir2 ++ "/" ++ name)
    /\ forall (fs : filesystem) (loaded : provider) (src2 c : file),
         _load_cache_file fs self (dir1 ++ "/" ++ name) = Ok (true, loaded) ->
         fs (dir2 ++ "/" ++ name) = Some src2 ->
         fs (_get_cache_filename self (dir1 ++ "/" ++ name)) = Some c ->
         PyFloat.ltb (st_mtime src2) (st_mtime c) = true ->
         _load_cache_file fs self (dir2 ++ "/" ++ name) = Ok (true, loaded).
Proof.
  intros Py Util Base Cache self other dir1 dir2 name Hcls Hname.
  assert (Hsame : forall (s1 s2 : provider) d1 d2,
             class_name s1 = class_name s2 ->
             _get_cache_filename s1 (d1 ++ "/" ++ name)
             = _get_cache_filename s2 (d2 ++ "/" ++ name)).
  { intros s1 s2 d1 d2 E. apply _get_cache_filename_basename; auto.
    now rewrite !basename_directory. }
  split; [|split].
  - unfold _get_cache_filename. rewrite basename_directory by assumption.
    destruct (OsPath.splitext name); reflexivity.
  - now apply Hsame.
  - intros fs loaded src2 c Hload Hsrc2 Hc Hnew.
    unfold _load_cache_file in *.
    rewrite (_find_cache_file_cases _ _ _ _ Hsrc2).
    rewrite (Hsame self self dir2 dir1 eq_refl), Hc, Hnew. simpl.
    unfold _find_cache_file, exists_, stat_mtime in Hload.
    rewrite Hc in Hload.
    destruct (fs (dir1 ++ "/" ++ name)) as [src1|]; simpl in Hload;
      [|discriminate].
    destruct (PyFloat.ltb (st_mtime src1) (st_mtime c)); simpl in Hload;
      [assumption|discriminate].
Qed.

(** C10 at the files /a/w.csv and /b/w.csv: the cache written for the first
    is what a provider for the second loads. *)
Lemma C10_two_directories_witness :
  let fs := add_file
              (add_file
                 (disk "/a/w.csv" (weather_file []))
                 "/b/w.csv" (weather_file ["20100101,8.5,2.0,10.0,1.0,3.0,0.0"]))
              cache_of_w
              (mkfile (PyFloat.of_Z 200) (Pickle (Some (mkstation (-99) [] PyFloat.zero PyFloat.zero PyFloat.zero PyFloat.zero PyFloat.zero false)) [])) in
  let self := fresh "CSVWeatherDataProvider" "%Y%m%d" "PM" "/a/w.csv" in
  _get_cache_filename self ("/a" ++ "/" ++ "w.csv") = cache_of_w
  /\ _get_cache_filename self ("/a" ++ "/" ++ "w.csv")
     = _get_cache_filename self ("/b" ++ "/" ++ "w.csv")
  /\ exists loaded,
       _load_cache_file fs self ("/b" ++ "/" ++ "w.csv") = Ok (true, loaded).
Proof.
  intros fs self.
  destruct (C10_cache_filename_ignores_directory
              python util base cache
              self self "/a" "/b" "w.csv" eq_refl eq_refl) as (H1 & H2 & H3).
  split; [exact H1|split; [exact H2|]].
  eexists. eapply (H3 fs); reflexivity.
Defined.

(** C7: for an existing source file, [_find_cache_file] returns the derived
    cache file name exactly when a file exists under that name whose
    modification time is strictly greater than that of the source, and
    returns None otherwise; hence, once the source file is touched at a time
    the cache is not strictly newer than, construction does not load the
    cache and runs the full parse of the source. *)
Theorem C7_cache_valid_iff_strictly_newer :
  forall (Py : Python) (Util : PcseUtil) (Base : PcseBase) (Cache : PcseCache)
         (Exec : PyExec) (fs : filesystem) (cls csv_fname delimiter fmt model : string)
         (src : file),
    fs (abspath csv_fname) = Some src ->
    let self := fresh cls fmt model (abspath csv_fname) in
    let cache_filename := _get_cache_filename self (abspath csv_fname) in
    (_find_cache_file fs self (abspath csv_fname) = Ok (Some cache_filename)
     <-> exists c, fs cache_filename = Some c /\
                   PyFloat.ltb (st_mtime src) (st_mtime c) = true)
    /\ (_find_cache_file fs self (abspath csv_fname) = Ok None
        <-> forall c, fs cache_filename = Some c ->
                      PyFloat.ltb (st_mtime src) (st_mtime c) = false)
    /\ forall t : float,
         (forall c, fs cache_filename = Some c ->
                    PyFloat.ltb t (st_mtime c) = false) ->
         __init__ (utime fs (abspath csv_fname) t) cls csv_fname delimiter fmt model
         = parse_source (utime fs (abspath csv_fname) t) self csv_fname delimiter fmt.
Proof.
  intros Py Util Base Cache Exec fs cls csv_fname delimiter fmt model src Hsrc
         self cache_filename.
  pose proof (_find_cache_file_cases fs self _ _ Hsrc) as Hcases.
  fold cache_filename in Hcases.
  split; [|split].
  - rewrite Hcases. split.
    + destruct (fs cache_filename) as [c|]; [|discriminate].
      destruct (PyFloat.ltb (st_mtime src) (st_mtime c)) eqn:E; [|discriminate].
      intros _. now exists c.
    + intros (c & Hc & Hnew). now rewrite Hc, Hnew.
  - rewrite Hcases. split.
    + destruct (fs cache_filename) as [c|].
      * destruct (PyFloat.ltb (st_mtime src) (st_mtime c)) eqn:E; [discriminate|].
        intros _ c' [= <-]. assumption.
      * discriminate.
    + intros Hold. destruct (fs cache_filename) as [c|]; [|reflexivity].
      now rewrite (Hold c eq_refl).
  - intros t Hold. unfold __init__. fold self.
    change (fp_csv_fname self) with (abspath csv_fname).
    unfold exists_. rewrite (utime_source _ _ t _ Hsrc). simpl negb. cbv iota.
    unfold _load_cache_file.
    rewrite (_find_cache_file_touched fs self _ src t Hsrc Hold).
    reflexivity.
Qed.

(** C7 at a weather file with a valid cache: after the source is touched at
    the time stamp of the cache, construction parses the source again. *)
Lemma C7_touched_source_witness :
  let fs := add_file (disk "/data/w.csv" (weather_file []))
              cache_of_w (mkfile (PyFloat.of_Z 200) (Pickle None [])) in
  let fs' := utime fs "/data/w.csv" (PyFloat.of_Z 200) in
  _find_cache_file fs (fresh "CSVWeatherDataProvider" "%Y%m%d" "PM" "/data/w.csv")
    "/data/w.csv" = Ok (Some cache_of_w)
  /\ construct fs' "/data/w.csv" "PM"
     = parse_source fs' (fresh "CSVWeatherDataProvider" "%Y%m%d" "PM" "/data/w.csv")
         "/data/w.csv" "," "%Y%m%d".
Proof.
  intros fs fs'.
  destruct (C7_cache_valid_iff_strictly_newer python util base cache
              exec_fragment fs "CSVWeatherDataProvider" "/data/w.csv" "," "%Y%m%d" "PM"
              (weather_file []) eq_refl) as (H1 & _ & H3).
  split.
  - apply H1. eexists. split; reflexivity.
  - apply (H3 (PyFloat.of_Z 200)).
    intros c Hc. vm_compute in Hc. injection Hc as <-. reflexivity.
Defined.

(** C3 at a corrupt cache file: with a cache file that is newer than the
    source but is not a pickle, the load raises and construction raises with
    it, although the source itself parses; the fallback branch for a cache
    file that cannot be loaded is not taken. *)
Lemma C3_corrupt_cache_aborts_construction :
  _find_cache_file corrupt_cache_disk
    (fresh "CSVWeatherDataProvider" "%Y%m%d" "PM" "/data/w.csv") "/data/w.csv"
  = Ok (Some cache_of_w)
  /\ _load corrupt_cache_disk cache_of_w
       (fresh "CSVWeatherDataProvider" "%Y%m%d" "PM" "/data/w.csv")
     = Raise (OtherException "UnpicklingError")
  /\ is_ok (parse_source corrupt_cache_disk
              (fresh "CSVWeatherDataProvider" "%Y%m%d" "PM" "/data/w.csv")
              "/data/w.csv" "," "%Y%m%d") = true
  /\ constructed (construct corrupt_cache_disk "/data/w.csv" "PM")
     = Raise (OtherException "UnpicklingError").
Proof. repeat split; vm_compute; reflexivity. Qed.

(** C3: what construction does with a cache file.  When the source exists
    and a cache file is found for it (it exists and is strictly newer),
    construction is the load of that file: an exception of the load is the
    exception of the construction, and the source is not parsed in its
    place.  The source is parsed only when no cache file is found. *)
Theorem C3_cache_load_failure_propagates :
  forall (Py : Python) (Util : PcseUtil) (Base : PcseBase) (Cache : PcseCache)
         (Exec : PyExec) (fs : filesystem) (cls csv_fname delimiter fmt model : string),
    exists_ fs (abspath csv_fname) = true ->
    let self := fresh cls fmt model (abspath csv_fname) in
    (forall c e,
        _find_cache_file fs self (abspath csv_fname) = Ok (Some c) ->
        _load fs c self = Raise e ->
        __init__ fs cls csv_fname delimiter fmt model = Raise e)
    /\ (forall c loaded,
        _find_cache_file fs self (abspath csv_fname) = Ok (Some c) ->
        _load fs c self = Ok loaded ->
        __init__ fs cls csv_fname delimiter fmt model = Ok (loaded, fs))
    /\ (_find_cache_file fs self (abspath csv_fname) = Ok None ->
        __init__ fs cls csv_fname delimiter fmt model
        = parse_source fs self csv_fname delimiter fmt).
Proof.
  intros Py Util Base Cache Exec fs cls csv_fname delimiter fmt model Hex self.
  unfold __init__. fold self.
  change (fp_csv_fname self) with (abspath csv_fname).
  rewrite Hex. simpl negb. cbv iota. unfold _load_cache_file.
  repeat split.
  - intros c e -> Hload. simpl. now rewrite Hload.
  - intros c loaded -> Hload. simpl. now rewrite Hload.
  - intros ->. reflexivity.
Qed.

(** C3 at the corrupt cache file: construction raises the exception of the
    load. *)
Lemma C3_cache_load_failure_witness :
  construct corrupt_cache_disk "/data/w.csv" "PM"
  = Raise (OtherException "UnpicklingError").
Proof.
  apply (proj1 (C3_cache_load_failure_propagates python util base cache
                  exec_fragment corrupt_cache_disk "CSVWeatherDataProvider" "/data/w.csv"
                  "," "%Y%m%d" "PM" eq_refl) cache_of_w);
    reflexivity.
Defined.

(** ** The conversion loop *)

Section ConversionFacts.
Context {Py : Python}.

Lemma eq_NaN_false (v : pyval) : eq_NaN v = false.
Proof. destruct v; simpl; auto using eqb_nan. Qed.

(** The comparison with NaN never holds, so the loop never raises
    NoDataError. *)
Lemma convert_fields_never_NoDataError fmt labels :
  forall d, raised_NoDataError (convert_fields fmt labels d) = false.
Proof.
  induction labels as [|l labels IH]; intros d; simpl; [reflexivity|].
  destruct (dict_item l obs_conversions) as [func|e] eqn:Ef; cbn [bind].
  2:{ unfold dict_item in Ef. destruct (dict_get l obs_conversions); now inversion Ef. }
  destruct (dict_item l d) as [x|e] eqn:Ex; cbn [bind].
  2:{ unfold dict_item in Ex. destruct (dict_get l d); now inversion Ex. }
  assert (Hc1 : forall f, raised_NoDataError (call1 f x) = false).
  { intros f. destruct f, x; simpl; try reflexivity;
      try (destruct (py_float s); reflexivity);
      try (destruct (PyFloat.is_infinite _); reflexivity). }
  assert (Hc2 : forall f, raised_NoDataError (call2 f x fmt) = false).
  { intros f. destruct f, x; simpl; try reflexivity.
    destruct (strptime s fmt); reflexivity. }
  destruct (if String.eqb l "DAY" then call2 func x fmt else call1 func x)
    as [y|e] eqn:Ey; cbn [bind].
  2:{ destruct (String.eqb l "DAY");
      [specialize (Hc2 func); rewrite Ey in Hc2
      |specialize (Hc1 func); rewrite Ey in Hc1]; assumption. }
  unfold dict_item at 1. rewrite dict_get_set_same. cbn [bind].
  rewrite eq_NaN_false. simpl. apply IH.
Qed.

Lemma convert_fields_values fmt labels :
  forall d d',
    NoDup labels ->
    convert_fields fmt labels d = Ok d' ->
    (forall l, In l labels ->
       exists x y, dict_get l d = Some x /\ converted fmt l x = Ok y /\
                   dict_get l d' = Some y)
    /\ (forall l, ~ In l labels -> dict_get l d' = dict_get l d).
Proof.
  induction labels as [|l labels IH]; intros d d' Hnd H; simpl in H.
  - injection H as <-. split; [intros l []|reflexivity].
  - inversion Hnd as [|? ? Hnotin Hnd']; subst.
    destruct (dict_item l obs_conversions) as [func|e] eqn:Ef;
      cbn [bind] in H; [|discriminate].
    destruct (dict_item l d) as [x|e] eqn:Ex; cbn [bind] in H; [|discriminate].
    destruct (if String.eqb l "DAY" then call2 func x fmt else call1 func x)
      as [y|e] eqn:Ey; cbn [bind] in H; [|discriminate].
    unfold dict_item at 1 in H. rewrite dict_get_set_same in H.
    cbn [bind] in H. rewrite eq_NaN_false in H. simpl in H.
    destruct (IH _ _ Hnd' H) as [Hin Hout].
    unfold dict_item in Ex. destruct (dict_get l d) as [x'|] eqn:Ed;
      inversion Ex; subst x'.
    split.
    + intros l' [<-|Hl'].
      * exists x, y. split; [assumption|]. split.
        -- unfold converted. now rewrite Ef.
        -- rewrite (Hout l Hnotin). apply dict_get_set_same.
      * destruct (Hin l' Hl') as (x' & y' & Hx' & Hy' & Hd').
        exists x', y'. repeat split; auto.
        rewrite <- Hx'. symmetry. apply dict_get_set_other.
        intros ->. contradiction.
    + intros l' Hl'. rewrite Hout by (intros ?; apply Hl'; now right).
      apply dict_get_set_other. intros ->. apply Hl'. now left.
Qed.

(** The table of lambdas is the fixed conversion of the specification. *)
Lemma converted_spec fmt label text :
  converted fmt label (VStr text) = spec_conversion fmt label text.
Proof.
  unfold converted, spec_conversion, dict_item, obs_conversions.
  cbn [dict_get existsb].
  repeat match goal with
         | |- context [String.eqb label ?s] =>
             let E := fresh "E" in
             destruct (String.eqb label s) eqn:E;
             [apply String.eqb_eq in E; subst label; cbn;
              try destruct (py_float text); try destruct (strptime text fmt);
              reflexivity|]
         end.
  reflexivity.
Qed.
End ConversionFacts.

(** ** Rows and headers *)

Lemma zip_VStr_Forall (header row : list string) :
  Forall (fun kv : string * pyval =>
            In (fst kv) header /\ exists t, snd kv = VStr t)
         (zip header (map VStr row)).
Proof.
  revert row. induction header as [|a header IH]; intros [|b row]; simpl;
    try constructor.
  - simpl. eauto.
  - eapply Forall_impl; [|apply IH]. simpl. intros kv [? ?]. auto.
Qed.

Lemma row_dict_facts (header row : list string) :
  NoDup (dict_keys (row_dict header row))
  /\ (forall k, In k (dict_keys (row_dict header row)) ->
                In k header /\ k <> EmptyString)
  /\ (forall k v, dict_get k (row_dict header row) = Some v ->
                  exists t, v = VStr t).
Proof.
  unfold row_dict.
  destruct (dict_of_pairs_ind
              (fun k (v : pyval) => In k header /\ exists t, v = VStr t)
              _ (zip_VStr_Forall header row)) as [Hnd Hval].
  set (d := dict_of_pairs (zip header (map VStr row))) in *.
  destruct (dict_mem EmptyString d) eqn:Em.
  - split; [now apply dict_keys_del_NoDup|]. split.
    + intros k Hk. destruct (dict_keys_del_In _ _ _ Hk) as [Hne Hin].
      destruct (dict_In_get _ _ Hin) as [x Hx]. split; [|assumption].
      exact (proj1 (Hval _ _ Hx)).
    + intros k v Hk.
      assert (Hne : k <> EmptyString).
      { apply dict_get_In in Hk. now destruct (dict_keys_del_In _ _ _ Hk). }
      rewrite dict_get_del_other in Hk by assumption.
      exact (proj2 (Hval _ _ Hk)).
  - split; [assumption|]. split.
    + intros k Hk. destruct (dict_In_get _ _ Hk) as [x Hx]. split.
      * exact (proj1 (Hval _ _ Hx)).
      * intros ->. unfold dict_mem in Em. now rewrite Hx in Em.
    + intros k v Hk. exact (proj2 (Hval _ _ Hk)).
Qed.

(** A translated label is empty or a key of the conversion table. *)
Lemma translate_cases (item : string) :
  translate item = EmptyString \/
  In (translate item)
     ["DAY"; "IRRAD"; "TMIN"; "TMAX"; "VAP"; "WIND"; "RAIN"; "SNOWDEPTH"].
Proof.
  unfold translate, translator. cbn [filter existsb snd fst].
  repeat match goal with
         | |- context [String.eqb item ?s] =>
             let E := fresh "E" in
             destruct (String.eqb item s) eqn:E;
             [apply String.eqb_eq in E; subst item; vm_compute; tauto|]
         end.
  now left.
Qed.

(** C8: when the conversion loop of a data row succeeds, the value of every
    field present in the row is the fixed conversion of its text: the date
    parsed with the configured format for DAY, the float times 1000 for
    IRRAD, the float divided by 10 for RAIN, the float itself for TMIN,
    TMAX, VAP, WIND and SNOWDEPTH. *)
Theorem C8_fixed_conversion_per_field :
  forall (Py : Python) (fmt : string) (header row : list string)
         (d' : dict pyval) (label : string) (v : pyval),
    convert_fields fmt (dict_keys (row_dict header row)) (row_dict header row)
    = Ok d' ->
    dict_get label (row_dict header row) = Some v ->
    exists text y,
      v = VStr text /\
      spec_conversion fmt label text = Ok y /\
      dict_get label d' = Some y.
Proof.
  intros Py fmt header row d' label v Hconv Hget.
  destruct (row_dict_facts header row) as (Hnd & _ & Hstr).
  destruct (Hstr _ _ Hget) as [text ->].
  destruct (convert_fields_values fmt _ _ _ Hnd Hconv) as [Hin _].
  destruct (Hin label (dict_get_In _ _ _ Hget)) as (x & y & Hx & Hy & Hd').
  rewrite Hget in Hx. injection Hx as <-.
  exists text, y. rewrite <- converted_spec. auto.
Qed.

(** C8 at a row with the RAIN cell 12.5: the stored value is 1.25. *)
Lemma C8_fixed_conversion_witness :
  exists text y,
    VStr "12.5" = VStr text /\
    spec_conversion "%Y%m%d" "RAIN" text = Ok y /\
    dict_get "RAIN"
      [("DAY", VDate (mkdate 2010 1 1));
       ("IRRAD", VFloat (PyFloat.of_Z 8500));
       ("RAIN", VFloat (PyFloat.div (PyFloat.of_Z 125) (PyFloat.of_Z 100)))]
    = Some y.
Proof.
  apply (C8_fixed_conversion_per_field python "%Y%m%d"
           ["DAY"; "IRRAD"; "RAIN"] ["20100101"; "8.5"; "12.5"]);
    vm_compute; reflexivity.
Defined.

Section RowFacts.
Context {Py : Python} {Util : PcseUtil} {Base : PcseBase}
        {Cache : PcseCache}.

(** A function of the table called with one argument on a text cell
    parses the cell as a float, unless it is the date function. *)
Lemma call1_text (label : string) (func : conversion) (t : string) :
  dict_get label obs_conversions = Some func ->
  label <> "DAY" ->
  match py_float t with
  | Some x => exists y, call1 func (VStr t) = Ok (VFloat y)
  | None => call1 func (VStr t) = Raise ValueError
  end.
Proof.
  intros Hf Hne.
  assert (Hfunc : func <> csvdate_to_date).
  { intros ->. apply Hne. revert Hf. unfold obs_conversions.
    cbn [dict_get].
    repeat match goal with
           | |- context [String.eqb label ?s] =>
               let E := fresh "E" in
               destruct (String.eqb label s) eqn:E;
               [apply String.eqb_eq in E; subst label;
                first [discriminate | reflexivity]|]
           end.
    discriminate. }
  destruct func; try congruence; simpl; destruct (py_float t); cbn [bind]; eauto.
Qed.

(** When the DAY text does not parse, the conversion loop raises
    ValueError, at DAY or at an earlier field. *)
Lemma convert_fields_bad_day fmt text labels :
  forall d,
    NoDup labels ->
    (forall l, In l labels ->
       dict_mem l obs_conversions = true /\ exists t, dict_get l d = Some (VStr t)) ->
    In "DAY" labels ->
    dict_get "DAY" d = Some (VStr text) ->
    strptime text fmt = None ->
    convert_fields fmt labels d = Raise ValueError.
Proof.
  induction labels as [|l labels IH]; intros d Hnd Hl Hday Hget Hbad;
    [destruct Hday|].
  inversion Hnd as [|? ? Hnotin Hnd']; subst.
  destruct (Hl l (or_introl eq_refl)) as [Hmem [t Ht]].
  cbn [convert_fields]. unfold dict_item at 1 2.
  unfold dict_mem in Hmem.
  destruct (dict_get l obs_conversions) as [func|] eqn:Ef; [|discriminate].
  rewrite Ht. cbn [bind].
  destruct (String.eqb l "DAY") eqn:Eday.
  - apply String.eqb_eq in Eday. subst l.
    injection Ef as <-. rewrite Hget in Ht. injection Ht as <-.
    simpl. now rewrite Hbad.
  - apply String.eqb_neq in Eday.
    pose proof (call1_text l func t Ef Eday) as Hcall.
    destruct (py_float t) as [x|].
    2:{ now rewrite Hcall. }
    destruct Hcall as [y ->]. cbn [bind].
    unfold dict_item. rewrite dict_get_set_same. cbn [bind].
    rewrite eq_NaN_false. simpl.
    destruct Hday as [->|Hday]; [contradiction|].
    apply IH; auto.
    + intros l' Hl'. destruct (Hl l' (or_intror Hl')) as [Hm [t' Ht']].
      split; [assumption|]. exists t'.
      rewrite dict_get_set_other; [assumption|].
      intros ->. contradiction.
    + rewrite dict_get_set_other; auto.
Qed.

Lemma translated_keys_in_table (raw_header row : list string) (l : string) :
  In l (dict_keys (row_dict (map translate raw_header) row)) ->
  dict_mem l obs_conversions = true.
Proof.
  intros Hin.
  destruct (row_dict_facts (map translate raw_header) row) as (_ & Hkeys & _).
  destruct (Hkeys l Hin) as [Hh Hne].
  apply in_map_iff in Hh. destruct Hh as (item & <- & _).
  destruct (translate_cases item) as [E|E]; [contradiction|].
  simpl in E.
  repeat (destruct E as [<-|E]; [reflexivity|]). destruct E.
Qed.

Lemma data_row_bad_day (self : provider) fmt raw_header row text :
  dict_get "DAY" (row_dict (map translate raw_header) row) = Some (VStr text) ->
  strptime text fmt = None ->
  data_row self fmt (map translate raw_header) row = Raise ValueError.
Proof.
  intros Hget Hbad. unfold data_row.
  destruct (row_dict_facts (map translate raw_header) row) as (Hnd & _ & Hstr).
  rewrite (convert_fields_bad_day fmt text); auto.
  - intros l Hl. split; [eapply translated_keys_in_table; eauto|].
    destruct (dict_In_get _ _ Hl) as [x Hx].
    destruct (Hstr _ _ Hx) as [t ->]. eauto.
  - eapply dict_get_In; eauto.
Qed.

(** The loop over a list of rows followed by another. *)
Lemma read_rows_app fmt h (rows1 rows2 : list (list string)) :
  forall self : provider,
    read_rows fmt (Some h) (rows1 ++ rows2) self
    = bind (read_rows fmt (Some h) rows1 self)
           (fun self' => read_rows fmt (Some h) rows2 self').
Proof.
  induction rows1 as [|row rows1 IH]; intros self; [reflexivity|].
  cbn [app read_rows].
  destruct (data_row self fmt h row) as [self'|e]; [apply IH|].
  destruct (is_ValueError e); [apply IH|].
  destruct (is_NoDataError e); reflexivity.
Qed.
End RowFacts.

(** C9: a data row whose DAY text does not parse under the date format
    raises ValueError in the loop body; the loop leaves the store as it was,
    records the warning and goes on with the rows after it, wherever the row
    stands in the file. *)
Theorem C9_unparsable_date_skips_row :
  forall (Py : Python) (Util : PcseUtil) (Base : PcseBase) (Cache : PcseCache)
         (self : provider) (fmt : string) (raw_header : list string)
         (before : list (list string)) (row : list string)
         (rest : list (list string)) (text : string),
    dict_get "DAY" (row_dict (map translate raw_header) row) = Some (VStr text) ->
    strptime text fmt = None ->
    read_rows fmt None (raw_header :: before ++ row :: rest) self
    = bind (read_rows fmt (Some (map translate raw_header)) before self)
        (fun self' =>
           read_rows fmt (Some (map translate raw_header)) rest (skip_row self' row))
    /\ forall self' : provider,
         store (skip_row self' row) = store self' /\
         warnings (skip_row self' row) = (warnings self' ++ [FailedReadingRow row])%list.
Proof.
  intros Py Util Base Cache self fmt raw_header before row rest text Hget Hbad.
  split.
  - cbn [read_rows]. rewrite read_rows_app.
    destruct (read_rows fmt (Some (map translate raw_header)) before self)
      as [self'|e]; cbn [bind]; [|reflexivity].
    cbn [read_rows]. now rewrite (data_row_bad_day self' fmt raw_header row text).
  - intros self'. split; reflexivity.
Qed.

(** C9 at a file whose second row has the date text notadate. *)
Lemma C9_unparsable_date_witness :
  let self := set_meta (fresh "CSVWeatherDataProvider" "%Y%m%d" "PM" "/data/w.csv")
                (mkstation (-99) [] PyFloat.zero PyFloat.zero PyFloat.zero
                   PyFloat.zero PyFloat.zero false) in
  let header := ["DAY"; "IRRAD"; "TMIN"; "TMAX"; "VAP"; "WIND"; "RAIN"] in
  let good1 := ["20100101"; "8500"; "2.0"; "10.0"; "1.0"; "3.0"; "0.0"] in
  let bad := ["notadate"; "8500"; "2.0"; "10.0"; "1.0"; "3.0"; "0.0"] in
  let good2 := ["20100103"; "9000"; "2.0"; "10.0"; "1.0"; "3.0"; "0.0"] in
  bind (read_rows "%Y%m%d" None (header :: [good1] ++ bad :: [good2]) self)
       (fun p => Ok (map fst (store p), warnings p))
  = Ok ([VDate (mkdate 2010 1 1); VDate (mkdate 2010 1 3)], [FailedReadingRow bad]).
Proof.
  intros self header good1 bad good2.
  rewrite (proj1 (C9_unparsable_date_skips_row python util base cache
                    self "%Y%m%d" header [good1] bad [good2] "notadate"
                    eq_refl eq_refl)).
  vm_compute. reflexivity.
Defined.

(** C1: the comparison of a converted value with float('NaN') is never true,
    so the conversion loop never raises NoDataError; a row whose TMIN cell
    is the text nan is converted to NaN, passed on and stored, and no
    warning is recorded. *)
Theorem C1_NaN_field_is_not_rejected :
  (forall (Py : Python) (v : pyval), eq_NaN v = false)
  /\ (forall (Py : Python) (fmt : string) (labels : list string) (d : dict pyval),
        raised_NoDataError (convert_fields fmt labels d) = false)
  /\ py_float "nan" = Some PyFloat.nan
  /\ stored_field "TMIN"
       (construct (disk "/data/w.csv"
                     (weather_file ["20100101,1500,nan,10.0,1.0,3.0,0.0"]))
          "/data/w.csv" "PM")
     = Ok ([(VDate (mkdate 2010 1 1), Some (VFloat PyFloat.nan))], []).
Proof.
  split; [|split; [|split]].
  - intros Py v. apply eq_NaN_false.
  - intros Py fmt labels d. apply convert_fields_never_NoDataError.
  - reflexivity.
  - vm_compute. reflexivity.
Qed.

(** ** The external calls *)

Section ExternalFacts.
Context {Py : Python} {Util : PcseUtil} {Base : PcseBase}
        {Cache : PcseCache} {Exec : PyExec}.

Lemma sunshine_angstrom_raises m d e :
  angstrom_raises m d e -> sunshine m d = Raise e.
Proof.
  intros (Hsun & irrad & day_ & Hi & Hb & Hd & Ha).
  unfold sunshine, dict_item. rewrite Hsun, Hi. cbn [bind].
  rewrite Hb. cbn [bind]. rewrite Hd. cbn [bind]. now rewrite Ha.
Qed.

Lemma evapotranspiration_raises m d e :
  reference_ET_raises m d e ->
  bind (sunshine m d) (evapotranspiration m) = Raise e.
Proof.
  intros (d2 & args & Hs & Hargs & Hr). rewrite Hs. cbn [bind].
  unfold evapotranspiration. rewrite Hargs. cbn [bind]. now rewrite Hr.
Qed.

(** An exception of an external call is the exception of the row. *)
Lemma data_row_external_raises (self : provider) m fmt header row d1 e :
  meta self = Some m ->
  convert_fields fmt (dict_keys (row_dict header row)) (row_dict header row)
  = Ok d1 ->
  angstrom_raises m d1 e \/ reference_ET_raises m d1 e ->
  data_row self fmt header row = Raise e.
Proof.
  intros Hm Hconv Hext. unfold data_row, get_meta.
  rewrite Hconv, Hm. cbn [bind].
  destruct Hext as [H|H].
  - now rewrite (sunshine_angstrom_raises _ _ _ H).
  - apply evapotranspiration_raises in H.
    destruct (sunshine m d1); cbn [bind] in *; [now rewrite H|congruence].
Qed.

(** The row loop does not read the ETmodel attribute. *)
Lemma data_row_set_ETmodel (self : provider) model fmt header row :
  data_row (set_ETmodel self model) fmt header row
  = bind (data_row self fmt header row) (fun p => Ok (set_ETmodel p model)).
Proof.
  unfold data_row, get_meta. cbn [set_ETmodel meta store].
  repeat match goal with
         | |- context [bind ?r _] => destruct r; cbn [bind]
         | |- context [match ?o with Some _ => _ | None => _ end] =>
             destruct o; cbn [bind]
         end; reflexivity.
Qed.




(** A tuple of two or more items for one of the description names is a
    TypeError of the formatting. *)
Lemma station_of_locals_tuple_Country (locs : dict pyval) a b rest :
  dict_get "Country" locs = Some (VTuple (a :: b :: rest)) ->
  station_of_locals locs = Raise TypeError.
Proof. intros H. unfold station_of_locals, dict_item. now rewrite H. Qed.
End ExternalFacts.

(** C2 as stated fails: a reference ET that raises ZeroDivisionError on the
    first data row makes the construction raise ZeroDivisionError; no row is
    skipped and no provider is returned. *)
Lemma C2_other_exception_aborts_construction :
  reference_ET (PcseUtil := util_zero_division) []
  = Raise (OtherException "ZeroDivisionError")
  /\ constructed
       (construct_with util_zero_division
          (disk "/data/w.csv"
             (weather_file ["20100101,8500,2.0,10.0,1.0,3.0,0.0";
                            "20100102,9000,2.0,10.0,1.0,3.0,0.0"]))
          "/data/w.csv" "PM")
     = Raise (OtherException "ZeroDivisionError").
Proof. split; vm_compute; reflexivity. Qed.

(** C2, amended: when the Angstrom call or the reference-ET call of a data
    row raises a ValueError, the row is skipped with a warning and the loop
    goes on with the rows after it; when it raises an exception that is
    neither a ValueError nor a NoDataError, the loop raises that
    exception. *)
Theorem C2_external_ValueError_skips_row :
  forall (Py : Python) (Util : PcseUtil) (Base : PcseBase) (Cache : PcseCache)
         (self : provider) (m : station) (fmt : string)
         (header row : list string) (rest : list (list string))
         (d1 : dict pyval) (e : exn),
    meta self = Some m ->
    convert_fields fmt (dict_keys (row_dict header row)) (row_dict header row)
    = Ok d1 ->
    angstrom_raises m d1 e \/ reference_ET_raises m d1 e ->
    (is_ValueError e = true ->
     read_rows fmt (Some header) (row :: rest) self
     = read_rows fmt (Some header) rest (skip_row self row))
    /\ (is_ValueError e = false -> is_NoDataError e = false ->
        read_rows fmt (Some header) (row :: rest) self = Raise e).
Proof.
  intros Py Util Base Cache self m fmt header row rest d1 e Hm Hconv Hext.
  cbn [read_rows].
  rewrite (data_row_external_raises self m fmt header row d1 e Hm Hconv Hext).
  split.
  - intros ->. reflexivity.
  - intros -> ->. reflexivity.
Qed.

(** C2 amended, at a reference ET with a math domain error. *)
Lemma C2_external_ValueError_witness :
  let self := set_meta (fresh "CSVWeatherDataProvider" "%Y%m%d" "PM" "/data/w.csv")
                (mkstation (-99) [] PyFloat.zero PyFloat.zero PyFloat.zero
                   PyFloat.zero PyFloat.zero false) in
  let header := ["DAY"; "IRRAD"] in
  let row := ["20100101"; "8500"] in
  read_rows (Util := util_domain_error) "%Y%m%d" (Some header) (row :: []) self
  = Ok (skip_row self row).
Proof.
  intros self header row.
  refine (proj1 (C2_external_ValueError_skips_row python util_domain_error
                   base cache self _ "%Y%m%d" header row [] _ ValueError
                   eq_refl eq_refl _) eq_refl).
  right. eexists. eexists. repeat split; reflexivity.
Defined.

(** C4: the row loop never reads the ETmodel attribute and the arguments of
    the reference-ET call hold no ETMODEL: with a reference ET that follows
    its ETMODEL argument, a provider constructed with P stores the rates of
    the default model PM. *)
Theorem C4_ETmodel_is_not_passed :
  (forall (Py : Python) (Util : PcseUtil) (Base : PcseBase) (Cache : PcseCache)
          (self : provider) (model fmt : string) (header row : list string),
      data_row (set_ETmodel self model) fmt header row
      = bind (data_row self fmt header row) (fun p => Ok (set_ETmodel p model)))
  /\ reference_ET_by_model [("ETMODEL", VStr "P")]
     = Ok (PyFloat.of_Z 30, PyFloat.of_Z 20, PyFloat.of_Z 40)
  /\ reference_ET_by_model [("ETMODEL", VStr "PM")]
     = Ok (PyFloat.of_Z 30, PyFloat.of_Z 20, PyFloat.of_Z 10)
  /\ stored_field "ET0"
       (construct_with util_by_model
          (disk "/data/w.csv" (weather_file ["20100101,8500,2.0,10.0,1.0,3.0,0.0"]))
          "/data/w.csv" "P")
     = Ok ([(VDate (mkdate 2010 1 1), Some (VFloat (PyFloat.of_Z 1)))], [])
  /\ stored_field "ETMODEL"
       (construct_with util_by_model
          (disk "/data/w.csv" (weather_file ["20100101,8500,2.0,10.0,1.0,3.0,0.0"]))
          "/data/w.csv" "P")
     = Ok ([(VDate (mkdate 2010 1 1), None)], []).
Proof.
  split; [|repeat split; vm_compute; reflexivity].
  intros. apply data_row_set_ETmodel.
Qed.

(** C5: the range test is made on the value already multiplied by 1000.
    With sunshine mode on, the IRRAD cell 8.5 becomes 8500.0, which is not
    below 24: whatever the Angstrom function is, it is not called and 8500.0
    is stored.  The correction is applied to the cell 0.02, with 20.0 as
    sunshine hours. *)
Theorem C5_sunshine_hours_are_not_corrected :
  (forall f : pyval -> float -> pyval -> float -> float -> result float,
      stored_field "IRRAD"
        (construct_with (util_with_angstrom f)
           (disk "/data/w.csv" (weather_file ["20100101,8.5,2.0,10.0,1.0,3.0,0.0"]))
           "/data/w.csv" "PM")
      = Ok ([(VDate (mkdate 2010 1 1), Some (VFloat (PyFloat.of_Z 8500)))], []))
  /\ call1 kJ_to_J (VStr "8.5") = Ok (VFloat (PyFloat.of_Z 8500))
  /\ between 0 (VFloat (PyFloat.of_Z 8500)) 24 = Ok false
  /\ stored_field "IRRAD"
       (construct_with (util_with_angstrom angstrom_echo)
          (disk "/data/w.csv" (weather_file ["20100101,0.02,2.0,10.0,1.0,3.0,0.0"]))
          "/data/w.csv" "PM")
     = Ok ([(VDate (mkdate 2010 1 1), Some (VFloat (PyFloat.of_Z 20)))], []).
Proof.
  split; [|repeat split; vm_compute; reflexivity].
  intros f. vm_compute. reflexivity.
Qed.





(** A header line that reads from the file object makes the loop skip the
    line it read: after csv_file.readline() the assignment to Altitude is
    not executed. *)
Lemma header_line_reading_the_file_skips_a_line :
  let lines := ("csv_file.readline()" :: "Altitude = 7" :: meta_lines)%list in
  let self := fresh "CSVWeatherDataProvider" "%Y%m%d" "PM" "/data/w.csv" in
  bind (meta_loop meta_ticks EmptyString (mkframe [] self lines))
       (fun fr => Ok (dict_get "Altitude" (f_locals fr), f_file fr))
  = Ok (None, []).
Proof. vm_compute. reflexivity. Qed.

(** * Further properties *)

(** ** The header translation *)

(** X1: the translation of a header label is the empty string or one of the
    eight canonical field names, and translating twice is translating
    once: the canonical names are their own aliases and no label has two. *)
Theorem X1_translate_canonical_idempotent :
  forall item : string,
    (translate item = EmptyString \/ In (translate item) canonical_fields)
    /\ translate (translate item) = translate item.
Proof.
  intros item. destruct (translate_cases item) as [E|E].
  - split; [now left|]. rewrite E. reflexivity.
  - split; [right; exact E|].
    simpl in E.
    repeat (destruct E as [<-|E]; [reflexivity|]). destruct E.
Qed.

(** ** Rows under a translated header *)

Section TranslatedRows.
Context {Py : Python} {Util : PcseUtil} {Base : PcseBase}
        {Cache : PcseCache}.

(** On text cells under labels of the table, the conversion loop raises
    nothing but ValueError. *)
Lemma convert_fields_only_ValueError fmt labels :
  forall d e,
    NoDup labels ->
    (forall l, In l labels ->
       dict_mem l obs_conversions = true /\ exists t, dict_get l d = Some (VStr t)) ->
    convert_fields fmt labels d = Raise e ->
    e = ValueError.
Proof.
  induction labels as [|l labels IH]; intros d e Hnd Hl H; [discriminate|].
  inversion Hnd as [|? ? Hnotin Hnd']; subst.
  destruct (Hl l (or_introl eq_refl)) as [Hmem [t Ht]].
  cbn [convert_fields] in H. unfold dict_item at 1 2 in H.
  unfold dict_mem in Hmem.
  destruct (dict_get l obs_conversions) as [func|] eqn:Ef; [|discriminate].
  rewrite Ht in H. cbn [bind] in H.
  assert (Hnext : forall y,
             convert_fields fmt labels (dict_set l y d) = Raise e -> e = ValueError).
  { intros y Hy. apply (IH (dict_set l y d) e Hnd'); [|exact Hy].
    intros l' Hl'. destruct (Hl l' (or_intror Hl')) as [Hm [t' Ht']].
    split; [assumption|]. exists t'.
    rewrite dict_get_set_other; [assumption|]. intros ->. contradiction. }
  destruct (String.eqb l "DAY") eqn:Eday.
  - apply String.eqb_eq in Eday. subst l. injection Ef as <-.
    simpl in H. destruct (strptime t fmt) as [dt|]; cbn [bind] in H.
    + unfold dict_item in H. rewrite dict_get_set_same in H. cbn [bind] in H.
      rewrite eq_NaN_false in H. simpl in H. eapply Hnext; eauto.
    + congruence.
  - apply String.eqb_neq in Eday.
    pose proof (call1_text l func t Ef Eday) as Hcall.
    destruct (py_float t) as [x|].
    + destruct Hcall as [y Hy]. rewrite Hy in H. cbn [bind] in H.
      unfold dict_item in H. rewrite dict_get_set_same in H. cbn [bind] in H.
      rewrite eq_NaN_false in H. simpl in H. eapply Hnext; eauto.
    + rewrite Hcall in H. cbn [bind] in H. congruence.
Qed.

Lemma convert_row_only_ValueError fmt raw_header row e :
  convert_fields fmt (dict_keys (row_dict (map translate raw_header) row))
    (row_dict (map translate raw_header) row) = Raise e ->
  e = ValueError.
Proof.
  destruct (row_dict_facts (map translate raw_header) row) as (Hnd & _ & Hstr).
  apply convert_fields_only_ValueError; auto.
  intros l Hl. split; [eapply translated_keys_in_table; eauto|].
  destruct (dict_In_get _ _ Hl) as [x Hx].
  destruct (Hstr _ _ Hx) as [t ->]. eauto.
Qed.
End TranslatedRows.

(** X2: under a translated header, a data row whose conversion loop fails
    on any cell (a text that is no float, a date that does not parse) is
    skipped with a warning and the loop goes on with the rows after it: the
    loop raises nothing but ValueError, never KeyError or TypeError. *)
Theorem X2_conversion_failure_skips_row :
  forall (Py : Python) (Util : PcseUtil) (Base : PcseBase) (Cache : PcseCache)
         (self : provider) (fmt : string) (raw_header row : list string)
         (rest : list (list string)),
    is_ok (convert_fields fmt
             (dict_keys (row_dict (map translate raw_header) row))
             (row_dict (map translate raw_header) row)) = false ->
    convert_fields fmt (dict_keys (row_dict (map translate raw_header) row))
      (row_dict (map translate raw_header) row) = Raise ValueError
    /\ read_rows fmt (Some (map translate raw_header)) (row :: rest) self
       = read_rows fmt (Some (map translate raw_header)) rest (skip_row self row).
Proof.
  intros Py Util Base Cache self fmt raw_header row rest Hfail.
  destruct (convert_fields fmt _ (row_dict (map translate raw_header) row))
    as [d1|e] eqn:E; [discriminate|].
  pose proof (convert_row_only_ValueError _ _ _ _ E) as ->.
  split; [reflexivity|].
  cbn [read_rows]. unfold data_row. rewrite E. reflexivity.
Qed.

(** X2 at a row whose TMIN cell is the text n/a. *)
Lemma X2_conversion_failure_witness :
  let self := fresh "CSVWeatherDataProvider" "%Y%m%d" "PM" "/data/w.csv" in
  let raw := ["w_date"; "srad"; "tmin"; "station"] in
  let row := ["20100101"; "8500"; "n/a"; "Wageningen"] in
  read_rows "%Y%m%d" (Some (map translate raw)) [row] self = Ok (skip_row self row).
Proof.
  intros self raw row.
  exact (proj2 (X2_conversion_failure_skips_row python util base cache
                  self "%Y%m%d" raw row [] eq_refl)).
Defined.

(** ** Duplicate columns *)

Section DuplicateFacts.
Context {V : Type}.

Lemma dict_of_pairs_app (a b : list (string * V)) :
  dict_of_pairs (a ++ b)
  = fold_left (fun d kv => dict_set (fst kv) (snd kv) d) b (dict_of_pairs a).
Proof. unfold dict_of_pairs. apply fold_left_app. Qed.

Lemma fold_dict_set_other (k : string) (b : list (string * V)) :
  forall d : dict V,
    Forall (fun kv => fst kv <> k) b ->
    dict_get k (fold_left (fun d kv => dict_set (fst kv) (snd kv) d) b d)
    = dict_get k d.
Proof.
  induction b as [|[k0 v0] b IH]; intros d Hb; [reflexivity|].
  inversion Hb; subst. cbn [fold_left fst snd]. rewrite IH by assumption.
  apply dict_get_set_other. simpl in *. congruence.
Qed.

Lemma zip_app {A B} (l1 l2 : list A) (m1 m2 : list B) :
  List.length l1 = List.length m1 ->
  zip (l1 ++ l2) (m1 ++ m2) = (zip l1 m1 ++ zip l2 m2)%list.
Proof.
  revert m1. induction l1 as [|a l1 IH]; intros [|b m1] H; simpl in *;
    try discriminate; [reflexivity|].
  now rewrite IH by lia.
Qed.

Lemma zip_keys {B} (k : string) (l : list string) (m : list B) :
  ~ In k l -> Forall (fun kv : string * B => fst kv <> k) (zip l m).
Proof.
  revert m. induction l as [|a l IH]; intros [|b m] H; simpl; constructor.
  - simpl. intros ->. apply H. now left.
  - apply IH. intros Hin. apply H. now right.
Qed.
End DuplicateFacts.

(** X3: when a label stands in several columns of the header, the cell of
    the last of these columns is the value of the field: for a non-empty
    label [k] that does not occur to the right of a column, the row
    dictionary maps [k] to the text in that column. *)
Theorem X3_last_duplicate_column_wins :
  forall (h1 h2 r1 r2 : list string) (k t : string),
    List.length h1 = List.length r1 ->
    ~ In k h2 ->
    k <> EmptyString ->
    dict_get k (row_dict (h1 ++ k :: h2) (r1 ++ t :: r2)) = Some (VStr t).
Proof.
  intros h1 h2 r1 r2 k t Hlen Hk Hne.
  assert (G : dict_get k (dict_of_pairs (zip (h1 ++ k :: h2)
                                           (map VStr (r1 ++ t :: r2))))
              = Some (VStr t)).
  { rewrite map_app. cbn [map].
    rewrite zip_app by (now rewrite length_map).
    cbn [zip]. rewrite dict_of_pairs_app. cbn [fold_left fst snd].
    rewrite fold_dict_set_other by (now apply zip_keys).
    apply dict_get_set_same. }
  unfold row_dict.
  destruct (dict_mem EmptyString _); [|exact G].
  now rewrite dict_get_del_other.
Qed.

(** X3 at a header with the aliases srad and IRRAD, which both translate to
    IRRAD. *)
Lemma X3_last_duplicate_column_witness :
  dict_get "IRRAD"
    (row_dict (map translate ["DAY"; "srad"; "IRRAD"; "TMIN"])
       ["20100101"; "8500"; "9000"; "2.0"])
  = Some (VStr "9000").
Proof.
  apply (X3_last_duplicate_column_wins ["DAY"; "IRRAD"] ["TMIN"]
           ["20100101"; "8500"] ["2.0"] "IRRAD" "9000").
  - reflexivity.
  - intros [H|[]]. discriminate.
  - discriminate.
Defined.

(** ** One data row *)

Section DataRowFacts.
Context {Py : Python} {Util : PcseUtil} {Base : PcseBase}
        {Cache : PcseCache}.

(** The conversion loop adds no key. *)
Lemma convert_fields_absent fmt (d d' : dict pyval) (k : string) :
  convert_fields fmt (dict_keys d) d = Ok d' ->
  NoDup (dict_keys d) ->
  dict_get k d = None ->
  dict_get k d' = None.
Proof.
  intros Hconv Hnd Hk.
  destruct (convert_fields_values fmt _ _ _ Hnd Hconv) as [_ Hout].
  rewrite Hout; [assumption|].
  intros Hin. destruct (dict_In_get _ _ Hin) as [x Hx]. congruence.
Qed.

(** The sunshine branch changes no field but IRRAD. *)
Lemma sunshine_other_fields m (d d2 : dict pyval) (k : string) :
  sunshine m d = Ok d2 -> k <> "IRRAD" -> dict_get k d2 = dict_get k d.
Proof.
  unfold sunshine. intros H Hk.
  destruct (has_sunshine m); [|now injection H as <-].
  destruct (dict_item "IRRAD" d) as [irrad|]; cbn [bind] in H; [|discriminate].
  destruct (between 0 irrad 24) as [[|]|]; cbn [bind] in H;
    [|now injection H as <-|discriminate].
  destruct (dict_item "DAY" d) as [day_|]; cbn [bind] in H; [|discriminate].
  destruct (angstrom day_ (latitude m) irrad (angstA m) (angstB m));
    cbn [bind] in H; [|discriminate].
  injection H as <-. now apply dict_get_set_other.
Qed.

(** The reference-ET step adds E0, ES0 and ET0, a tenth of what the
    external function returns, and changes no other field. *)
Lemma evapotranspiration_fields m (d d3 : dict pyval) :
  evapotranspiration m d = Ok d3 ->
  exists args e0 es0 et0,
    reference_ET_args m d = Ok args /\
    reference_ET args = Ok (e0, es0, et0) /\
    dict_get "E0" d3 = Some (VFloat (PyFloat.div e0 (PyFloat.of_Z 10))) /\
    dict_get "ES0" d3 = Some (VFloat (PyFloat.div es0 (PyFloat.of_Z 10))) /\
    dict_get "ET0" d3 = Some (VFloat (PyFloat.div et0 (PyFloat.of_Z 10))) /\
    forall k, k <> "E0" -> k <> "ES0" -> k <> "ET0" ->
              dict_get k d3 = dict_get k d.
Proof.
  unfold evapotranspiration. intros H.
  destruct (reference_ET_args m d) as [args|]; cbn [bind] in H; [|discriminate].
  destruct (reference_ET args) as [[[e0 es0] et0]|] eqn:Er; cbn [bind] in H;
    [|discriminate].
  injection H as <-. exists args, e0, es0, et0.
  split; [reflexivity|]. split; [assumption|].
  repeat split.
  - rewrite !dict_get_set_other by discriminate. apply dict_get_set_same.
  - rewrite dict_get_set_other by discriminate. apply dict_get_set_same.
  - apply dict_get_set_same.
  - intros k H1 H2 H3. now rewrite !dict_get_set_other by assumption.
Qed.
End DataRowFacts.

(** X4: with sunshine mode on, a data row that has no IRRAD cell (a blank
    line, a row shorter than the header, a header without an IRRAD column)
    and whose cells convert raises KeyError in the loop body; the loop has no
    handler for it and raises it, so the rows after it are not read. *)
Theorem X4_missing_IRRAD_aborts_in_sunshine_mode :
  forall (Py : Python) (Util : PcseUtil) (Base : PcseBase) (Cache : PcseCache)
         (self : provider) (m : station) (fmt : string)
         (header row : list string) (rest : list (list string)),
    meta self = Some m ->
    has_sunshine m = true ->
    dict_get "IRRAD" (row_dict header row) = None ->
    is_ok (convert_fields fmt (dict_keys (row_dict header row))
             (row_dict header row)) = true ->
    read_rows fmt (Some header) (row :: rest) self = Raise (KeyError "IRRAD").
Proof.
  intros Py Util Base Cache self m fmt header row rest Hm Hsun Hno Hok.
  destruct (convert_fields fmt _ (row_dict header row)) as [d1|] eqn:E;
    [|discriminate].
  destruct (row_dict_facts header row) as (Hnd & _).
  pose proof (convert_fields_absent _ _ _ _ E Hnd Hno) as Hno1.
  cbn [read_rows]. unfold data_row, get_meta. rewrite E, Hm. cbn [bind].
  unfold sunshine, dict_item. rewrite Hsun, Hno1. reflexivity.
Qed.

(** X4 at a blank line between two data rows. *)
Lemma X4_missing_IRRAD_witness :
  let self := set_meta (fresh "CSVWeatherDataProvider" "%Y%m%d" "PM" "/data/w.csv")
                (mkstation (-99) [] PyFloat.zero PyFloat.zero PyFloat.zero
                   PyFloat.zero PyFloat.zero true) in
  read_rows "%Y%m%d" (Some ["DAY"; "IRRAD"; "TMIN"])
    ([] :: [["20100102"; "9000"; "2.0"]]) self
  = Raise (KeyError "IRRAD").
Proof.
  intros self.
  apply (X4_missing_IRRAD_aborts_in_sunshine_mode python util base cache
           self _ "%Y%m%d" ["DAY"; "IRRAD"; "TMIN"] []
           [["20100102"; "9000"; "2.0"]] eq_refl eq_refl eq_refl eq_refl).
Defined.

(** X5: the derived-quantity steps of a row keep the converted fields: the
    sunshine branch changes no field but IRRAD, and the reference-ET step
    adds E0, ES0 and ET0 as a tenth of the three values the external
    function returns for the station arguments followed by the fields. *)
Theorem X5_derived_quantities_keep_fields :
  forall (Py : Python) (Util : PcseUtil) (Base : PcseBase) (Cache : PcseCache)
         (m : station) (d d2 d3 : dict pyval),
    sunshine m d = Ok d2 ->
    evapotranspiration m d2 = Ok d3 ->
    exists e0 es0 et0,
      reference_ET ([ ("LAT", VFloat (latitude m)); ("ELEV", VFloat (elevation m));
                      ("ANGSTA", VFloat (angstA m)); ("ANGSTB", VFloat (angstB m)) ]
                    ++ d2)%list = Ok (e0, es0, et0) /\
      dict_get "E0" d3 = Some (VFloat (PyFloat.div e0 (PyFloat.of_Z 10))) /\
      dict_get "ES0" d3 = Some (VFloat (PyFloat.div es0 (PyFloat.of_Z 10))) /\
      dict_get "ET0" d3 = Some (VFloat (PyFloat.div et0 (PyFloat.of_Z 10))) /\
      forall k, k <> "IRRAD" -> k <> "E0" -> k <> "ES0" -> k <> "ET0" ->
                dict_get k d3 = dict_get k d.
Proof.
  intros Py Util Base Cache m d d2 d3 Hs He.
  destruct (evapotranspiration_fields m d2 d3 He)
    as (args & e0 & es0 & et0 & Hargs & Hr & H0 & H1 & H2 & Hk).
  exists e0, es0, et0.
  assert (args = ([ ("LAT", VFloat (latitude m)); ("ELEV", VFloat (elevation m));
                    ("ANGSTA", VFloat (angstA m)); ("ANGSTB", VFloat (angstB m)) ]
                  ++ d2)%list) as <-.
  { unfold reference_ET_args, kwargs in Hargs.
    destruct (existsb _ _); [discriminate|]. now injection Hargs. }
  repeat split; auto.
  intros k Hi Ha Hb Hc. rewrite Hk by assumption.
  now apply (sunshine_other_fields m d d2).
Qed.

(** X5 at a row in sunshine mode whose IRRAD is corrected. *)
Lemma X5_derived_quantities_witness :
  let m := mkstation (-99) [] PyFloat.zero PyFloat.zero PyFloat.zero
             PyFloat.zero PyFloat.zero true in
  let d := [ ("DAY", VDate (mkdate 2010 1 1)); ("IRRAD", VFloat (PyFloat.of_Z 20));
             ("TMIN", VFloat (PyFloat.of_Z 2)); ("TMAX", VFloat (PyFloat.of_Z 10));
             ("VAP", VFloat (PyFloat.of_Z 1)); ("WIND", VFloat (PyFloat.of_Z 3)) ] in
  exists d3,
    bind (sunshine m d) (evapotranspiration m) = Ok d3 /\
    dict_get "ET0" d3 = Some (VFloat (PyFloat.of_Z 1)) /\
    dict_get "TMAX" d3 = Some (VFloat (PyFloat.of_Z 10)).
Proof.
  intros m d.
  destruct (X5_derived_quantities_keep_fields python util base cache m d
              (dict_set "IRRAD" (VFloat (PyFloat.of_Z 7500000)) d)
              _ eq_refl eq_refl)
    as (e0 & es0 & et0 & Hr & _ & _ & H2 & Hk).
  eexists. split; [reflexivity|]. split.
  - vm_compute in Hr. injection Hr as <- <- <-. rewrite H2. reflexivity.
  - rewrite Hk by discriminate. reflexivity.
Defined.

Section StoreFacts.
Context {Py : Python} {Util : PcseUtil} {Base : PcseBase}
        {Cache : PcseCache}.

(** A stored row changes the store of the provider and nothing else. *)
Lemma data_row_set_store (self self' : provider) fmt header row :
  data_row self fmt header row = Ok self' ->
  self' = set_store self (store self').
Proof.
  unfold data_row. intros H.
  repeat match type of H with
         | bind ?r _ = _ => destruct r; cbn [bind] in H; [|discriminate]
         end.
  now injection H as <-.
Qed.

(** What a successful row hands to the store. *)
Lemma data_row_stored (self self' : provider) fmt header row :
  data_row self fmt header row = Ok self' ->
  exists d1 d3 day_ wdc,
    convert_fields fmt (dict_keys (row_dict header row)) (row_dict header row)
    = Ok d1 /\
    dict_get "DAY" d3 = Some day_ /\
    dict_get "DAY" d3 = dict_get "DAY" d1 /\
    _store_WeatherDataContainer wdc day_ (store self) = Ok (store self').
Proof.
  unfold data_row. intros H.
  destruct (convert_fields fmt _ (row_dict header row)) as [d1|] eqn:E1;
    cbn [bind] in H; [|discriminate].
  destruct (get_meta self) as [m|]; cbn [bind] in H; [|discriminate].
  destruct (sunshine m d1) as [d2|] eqn:E2; cbn [bind] in H; [|discriminate].
  destruct (evapotranspiration m d2) as [d3|] eqn:E3; cbn [bind] in H;
    [|discriminate].
  destruct (kwargs _ d3) as [args|]; cbn [bind] in H; [|discriminate].
  destruct (WeatherDataContainer args) as [wdc|]; cbn [bind] in H; [|discriminate].
  unfold dict_item in H.
  destruct (dict_get "DAY" d3) as [day_|] eqn:E4; cbn [bind] in H; [|discriminate].
  destruct (_store_WeatherDataContainer wdc day_ (store self)) as [s|] eqn:E5;
    cbn [bind] in H; [|discriminate].
  injection H as <-. exists d1, d3, day_, wdc.
  repeat split; auto.
  destruct (evapotranspiration_fields m d2 d3 E3)
    as (_ & _ & _ & _ & _ & _ & _ & _ & _ & Hk).
  rewrite Hk by discriminate.
  now apply (sunshine_other_fields m d1 d2).
Qed.
End StoreFacts.

(** X6: a data row that is stored is stored under its own date: the row has
    a DAY cell, the cell parses under the date format, and the key given to
    the store is the parsed date; the row changes nothing of the provider
    but the store. *)
Theorem X6_row_is_stored_under_its_date :
  forall (Py : Python) (Util : PcseUtil) (Base : PcseBase) (Cache : PcseCache)
         (self self' : provider) (fmt : string) (header row : list string),
    data_row self fmt header row = Ok self' ->
    exists text dt wdc,
      dict_get "DAY" (row_dict header row) = Some (VStr text) /\
      strptime text fmt = Some dt /\
      _store_WeatherDataContainer wdc (VDate dt) (store self) = Ok (store self') /\
      self' = set_store self (store self').
Proof.
  intros Py Util Base Cache self self' fmt header row H.
  destruct (data_row_stored _ _ _ _ _ H)
    as (d1 & d3 & day_ & wdc & Hconv & Hday3 & Hsame & Hstore).
  destruct (row_dict_facts header row) as (Hnd & _ & Hstr).
  destruct (convert_fields_values fmt _ _ _ Hnd Hconv) as [Hin Hout].
  destruct (in_dec string_dec "DAY" (dict_keys (row_dict header row)))
    as [Hk|Hk].
  - destruct (Hin _ Hk) as (x & y & Hx & Hy & Hd1).
    destruct (Hstr _ _ Hx) as [text ->].
    rewrite converted_spec in Hy. unfold spec_conversion in Hy.
    rewrite String.eqb_refl in Hy.
    destruct (strptime text fmt) as [dt|] eqn:Edt; [|discriminate].
    injection Hy as <-.
    assert (day_ = VDate dt) as -> by congruence.
    exists text, dt, wdc. repeat split; auto.
    now apply (data_row_set_store self self' fmt header row).
  - rewrite Hsame, (Hout _ Hk) in Hday3.
    destruct (dict_get "DAY" (row_dict header row)) as [x|] eqn:Ex;
      [|discriminate].
    exfalso. apply Hk. eapply dict_get_In; eauto.
Qed.

(** X6 at the row 20100101,8500,2.0,10.0,1.0,3.0. *)
Lemma X6_row_is_stored_witness :
  let self := set_meta (fresh "CSVWeatherDataProvider" "%Y%m%d" "PM" "/data/w.csv")
                (mkstation (-99) [] PyFloat.zero PyFloat.zero PyFloat.zero
                   PyFloat.zero PyFloat.zero false) in
  exists text dt wdc (s : Store),
    dict_get "DAY" (row_dict ["DAY"; "IRRAD"; "TMIN"; "TMAX"; "VAP"; "WIND"]
                      ["20100101"; "8500"; "2.0"; "10.0"; "1.0"; "3.0"])
    = Some (VStr text) /\
    strptime text "%Y%m%d" = Some dt /\
    _store_WeatherDataContainer wdc (VDate dt) (store self) = Ok s.
Proof.
  intros self.
  destruct (X6_row_is_stored_under_its_date python util base cache self _
              "%Y%m%d" ["DAY"; "IRRAD"; "TMIN"; "TMAX"; "VAP"; "WIND"]
              ["20100101"; "8500"; "2.0"; "10.0"; "1.0"; "3.0"] eq_refl)
    as (text & dt & wdc & H1 & H2 & H3 & _).
  exists text, dt, wdc. eexists. repeat split; eauto.
Defined.

Section SkippedFacts.
Context {Py : Python} {Util : PcseUtil} {Base : PcseBase}
        {Cache : PcseCache}.

(** The body of the loop reads neither the warnings nor the printed
    lines. *)
Lemma data_row_skip_row (self : provider) fmt header row r :
  data_row (skip_row self r) fmt header row
  = bind (data_row self fmt header row) (fun p => Ok (skip_row p r)).
Proof.
  unfold data_row, get_meta.
  cbn [skip_row print logger_warn meta store].
  repeat match goal with
         | |- context [bind ?x _] => destruct x; cbn [bind]
         | |- context [match ?o with Some _ => _ | None => _ end] =>
             destruct o; cbn [bind]
         end; reflexivity.
Qed.

Lemma skipped_rows_skip_row fmt (rows : list (list string)) :
  forall header (self : provider) r,
    skipped_rows fmt header rows (skip_row self r)
    = skipped_rows fmt header rows self.
Proof.
  induction rows as [|row rows IH]; intros header self r; [reflexivity|].
  cbn [skipped_rows]. destruct header as [h|]; [|apply IH].
  rewrite data_row_skip_row.
  destruct (data_row self fmt h row) as [self1|e]; cbn [bind]; [apply IH|].
  destruct (is_ValueError e); [|reflexivity]. now rewrite IH.
Qed.

Lemma skipped_rows_incl fmt (rows : list (list string)) :
  forall header (self : provider),
    incl (skipped_rows fmt header rows self) rows
    /\ (List.length (skipped_rows fmt header rows self) <= List.length rows)%nat.
Proof.
  induction rows as [|row rows IH]; intros header self;
    [split; [apply incl_refl|reflexivity]|].
  cbn [skipped_rows]. destruct header as [h|].
  - destruct (data_row self fmt h row) as [self1|e].
    + destruct (IH (Some h) self1). split; [now apply incl_tl|simpl; lia].
    + destruct (is_ValueError e).
      * destruct (IH (Some h) self) as [Hi Hl]. split; [|simpl; lia].
        intros x [<-|Hx]; [now left|right; now apply Hi].
      * split; [intros x []|simpl; lia].
  - destruct (IH (Some (map translate row)) self).
    split; [now apply incl_tl|simpl; lia].
Qed.
End SkippedFacts.

(** X7: the row loop changes the store, the warnings and the printed lines
    of the provider and nothing else; the warnings and the printed lines
    grow by one message for every row whose body raised ValueError, in the
    order of the rows, and by nothing else. *)
Theorem X7_row_loop_invariants :
  forall (Py : Python) (Util : PcseUtil) (Base : PcseBase) (Cache : PcseCache)
         (fmt : string) (rows : list (list string))
         (header : option (list string)) (self self' : provider),
    read_rows fmt header rows self = Ok self' ->
    (class_name self' = class_name self /\ dateformat self' = dateformat self /\
     ETmodel self' = ETmodel self /\ fp_csv_fname self' = fp_csv_fname self /\
     meta self' = meta self)
    /\ incl (skipped_rows fmt header rows self) rows
    /\ (List.length (skipped_rows fmt header rows self) <= List.length rows)%nat
    /\ warnings self'
       = (warnings self
          ++ map FailedReadingRow (skipped_rows fmt header rows self))%list
    /\ printed self'
       = (printed self
          ++ map FailedReadingRow (skipped_rows fmt header rows self))%list.
Proof.
  intros Py Util Base Cache fmt rows header self self' H.
  destruct (skipped_rows_incl fmt rows header self) as [Hincl Hlen].
  assert (G : (class_name self' = class_name self /\
               dateformat self' = dateformat self /\
               ETmodel self' = ETmodel self /\
               fp_csv_fname self' = fp_csv_fname self /\
               meta self' = meta self)
              /\ warnings self'
                 = (warnings self
                    ++ map FailedReadingRow (skipped_rows fmt header rows self))%list
              /\ printed self'
                 = (printed self
                    ++ map FailedReadingRow (skipped_rows fmt header rows self))%list).
  { clear Hincl Hlen. revert header self self' H.
    induction rows as [|row rows IH]; intros header self self' H.
    - injection H as <-. cbn [skipped_rows map]. rewrite !app_nil_r. auto 8.
    - cbn [read_rows] in H. cbn [skipped_rows]. destruct header as [h|].
      + destruct (data_row self fmt h row) as [self1|e] eqn:Erow.
        * apply data_row_set_store in Erow.
          destruct (IH _ _ _ H) as ((F1 & F2 & F3 & F4 & F5) & Hw & Hp).
          assert (Hsame : class_name self1 = class_name self /\
                          dateformat self1 = dateformat self /\
                          ETmodel self1 = ETmodel self /\
                          fp_csv_fname self1 = fp_csv_fname self /\
                          meta self1 = meta self /\
                          warnings self1 = warnings self /\
                          printed self1 = printed self)
            by (rewrite Erow; cbn; auto 8).
          destruct Hsame as (S1 & S2 & S3 & S4 & S5 & S6 & S7).
          rewrite S6 in Hw. rewrite S7 in Hp.
          repeat split; congruence.
        * destruct (is_ValueError e).
          -- destruct (IH _ _ _ H) as (Hf & Hw & Hp).
             rewrite skipped_rows_skip_row in Hw, Hp.
             cbn in Hf, Hw, Hp. split; [exact Hf|]. split.
             ++ rewrite Hw, <- app_assoc. reflexivity.
             ++ rewrite Hp, <- app_assoc. reflexivity.
          -- destruct (is_NoDataError e); discriminate.
      + apply (IH _ _ _ H). }
  destruct G as (Hf & Hw & Hp). repeat split; try tauto; assumption.
Qed.

(** X7 at a file with one good and one bad row. *)
Lemma X7_row_loop_witness :
  let self := set_meta (fresh "CSVWeatherDataProvider" "%Y%m%d" "PM" "/data/w.csv")
                (mkstation (-99) [] PyFloat.zero PyFloat.zero PyFloat.zero
                   PyFloat.zero PyFloat.zero false) in
  let good := ["20100101"; "8500"; "2.0"; "10.0"; "1.0"; "3.0"] in
  let bad := ["20100102"; "x"; "2.0"; "10.0"; "1.0"; "3.0"] in
  let rows := [ ["DAY"; "IRRAD"; "TMIN"; "TMAX"; "VAP"; "WIND"]; good; bad ] in
  exists self' : provider,
    read_rows "%Y%m%d" None rows self = Ok self' /\
    meta self' = meta self /\
    warnings self' = [FailedReadingRow bad] /\
    printed self' = [FailedReadingRow bad].
Proof.
  intros self good bad rows.
  assert (Hrun : exists self', read_rows "%Y%m%d" None rows self = Ok self').
  { eexists. vm_compute. reflexivity. }
  destruct Hrun as (self' & Hrun). exists self'.
  destruct (X7_row_loop_invariants python util base cache "%Y%m%d" rows None
              self self' Hrun) as ((_ & _ & _ & _ & Hm) & _ & _ & Hw & Hp).
  repeat split; assumption.
Defined.

(** ** The meta header *)

Section MetaFacts.
Context {Py : Python} {Util : PcseUtil} {Base : PcseBase}
        {Cache : PcseCache} {Exec : PyExec}.


(** When the assignments after the loop succeed, each of the eleven names
    is bound. *)
Lemma station_of_locals_bound (locs : dict pyval) (m : station) :
  station_of_locals locs = Ok m ->
  Forall (fun k => dict_mem k locs = true) meta_keys.
Proof.
  unfold station_of_locals, dict_item, dict_mem, meta_keys. intros H.
  repeat match type of H with
         | context [dict_get ?k locs] =>
             lazymatch goal with
             | _ : dict_get k locs = Some _ |- _ => fail
             | _ => destruct (dict_get k locs) eqn:?; cbn [bind] in H;
                    [|discriminate]
             end
         | bind ?r _ = _ => destruct r as [?|?]; cbn [bind] in H; [|discriminate]
         | (let '(_, _) := ?p in _) = _ => destruct p
         end.
  repeat constructor;
    match goal with
    | E : dict_get ?k locs = Some _ |- context [dict_get ?k locs] =>
        now rewrite E
    end.
Qed.

(** The sunshine flag is the truth value of the binding of HasSunshine. *)
Lemma station_of_locals_sunshine (locs : dict pyval) (m : station) (v : pyval) :
  station_of_locals locs = Ok m ->
  dict_get "HasSunshine" locs = Some v ->
  has_sunshine m = bool_of v.
Proof.
  unfold station_of_locals, dict_item. intros H Hv. rewrite Hv in H.
  repeat match type of H with
         | bind ?r _ = _ => destruct r as [?|?]; cbn [bind] in H; [|discriminate]
         | context [match dict_get ?k locs with _ => _ end] =>
             destruct (dict_get k locs); cbn [bind] in H; [|discriminate]
         | (let '(_, _) := ?p in _) = _ => destruct p
         end.
  now injection H as <-.
Qed.
End MetaFacts.




(** X9: when one of the eleven names is not bound after the header lines
    were executed, the meta-header parser raises and no provider is
    built. *)
Theorem X9_missing_meta_key_fails :
  forall (Py : Python) (Util : PcseUtil) (Base : PcseBase) (Cache : PcseCache)
         (Exec : PyExec) (self : provider) (csv_file : list string)
         (fr : frame) (k : string),
    meta_loop meta_ticks EmptyString (mkframe [] self csv_file) = Ok fr ->
    In k meta_keys ->
    dict_get k (f_locals fr) = None ->
    is_ok (_read_meta self csv_file) = false.
Proof.
  intros Py Util Base Cache Exec self csv_file fr k Hloop Hk Hnone.
  unfold _read_meta. rewrite Hloop. cbn [bind].
  destruct (station_of_locals (f_locals fr)) as [m|] eqn:E; [|reflexivity].
  pose proof (station_of_locals_bound _ _ E) as Hall.
  rewrite Forall_forall in Hall. specialize (Hall k Hk).
  unfold dict_mem in Hall. now rewrite Hnone in Hall.
Qed.

(** X9 at a header without the Elevation line. *)
Lemma X9_missing_meta_key_witness :
  is_ok (_read_meta (fresh "CSVWeatherDataProvider" "%Y%m%d" "PM" "/data/w.csv")
           [ "Country = 'Netherlands'"; "Station = 'Wageningen'";
             "Description = 'Observed data'"; "Source = 'MAQ'";
             "Contact = 'Peter Uithol'"; "Longitude = 5.67"; "Latitude = 52.0";
             "AngstromA = 0.25"; "AngstromB = 0.5"; "HasSunshine = True";
             "## Daily weather data" ])
  = false.
Proof.
  eapply (X9_missing_meta_key_fails python util base cache exec_fragment
            _ _ _ "Elevation").
  - vm_compute. reflexivity.
  - vm_compute. tauto.
  - reflexivity.
Defined.

(** X10: the sunshine flag is the truth value of whatever HasSunshine is
    bound to, so every non-empty string switches sunshine mode on, the
    string False included. *)
Theorem X10_string_HasSunshine_is_true :
  forall (Py : Python) (Util : PcseUtil) (Base : PcseBase) (Cache : PcseCache)
         (Exec : PyExec) (self self' : provider) (csv_file rest' : list string)
         (fr : frame) (s : string),
    meta_loop meta_ticks EmptyString (mkframe [] self csv_file) = Ok fr ->
    dict_get "HasSunshine" (f_locals fr) = Some (VStr s) ->
    s <> EmptyString ->
    _read_meta self csv_file = Ok (self', rest') ->
    exists m, meta self' = Some m /\ has_sunshine m = true.
Proof.
  intros Py Util Base Cache Exec self self' csv_file rest' fr s
         Hloop Hs Hne H.
  unfold _read_meta in H. rewrite Hloop in H. cbn [bind] in H.
  destruct (station_of_locals (f_locals fr)) as [m|] eqn:E; cbn [bind] in H;
    [|discriminate].
  injection H as <- <-. exists m. split; [reflexivity|].
  rewrite (station_of_locals_sunshine _ _ _ E Hs). simpl.
  apply String.eqb_neq in Hne. now rewrite Hne.
Qed.

(** X10 at a header with the line HasSunshine = 'False'. *)
Lemma X10_string_HasSunshine_witness :
  let lines := [ "Country = 'Netherlands'"; "Station = 'Wageningen'";
                 "Description = 'Observed data'"; "Source = 'MAQ'";
                 "Contact = 'Peter Uithol'"; "Longitude = 5.67"; "Latitude = 52.0";
                 "Elevation = 7"; "AngstromA = 0.25"; "AngstromB = 0.5";
                 "HasSunshine = 'False'"; "## Daily weather data" ] in
  exists self' m,
    _read_meta (fresh "CSVWeatherDataProvider" "%Y%m%d" "PM" "/data/w.csv") lines
    = Ok (self', []) /\
    meta self' = Some m /\ has_sunshine m = true.
Proof.
  intros lines.
  assert (Hloop : exists fr,
             meta_loop meta_ticks EmptyString
               (mkframe [] (fresh "CSVWeatherDataProvider" "%Y%m%d" "PM"
                              "/data/w.csv") lines) = Ok fr
             /\ dict_get "HasSunshine" (f_locals fr) = Some (VStr "False")).
  { eexists. split; vm_compute; reflexivity. }
  destruct Hloop as (fr & Hloop & Hs).
  assert (Hread : exists self',
             _read_meta (fresh "CSVWeatherDataProvider" "%Y%m%d" "PM"
                           "/data/w.csv") lines = Ok (self', [])).
  { eexists. vm_compute. reflexivity. }
  destruct Hread as (self' & Hread). exists self'.
  destruct (X10_string_HasSunshine_is_true python util base cache exec_fragment
              _ self' lines [] fr "False" Hloop Hs
              ltac:(discriminate) Hread) as (m & Hm & Hsun).
  exists m. repeat split; assumption.
Defined.

(** X11: a failure to write the cache does not lose the parse.  When no
    cache file is found and the source parses to a provider, construction
    returns that provider with the file system the dump left: unchanged when
    the dump succeeds, with one more warning when the dump raises OSError;
    any other exception of the dump is the exception of the
    construction. *)
Theorem X11_cache_write_failure_keeps_parse :
  forall (Py : Python) (Util : PcseUtil) (Base : PcseBase) (Cache : PcseCache)
         (Exec : PyExec) (fs fs' : filesystem) (cls csv_fname delimiter fmt model : string)
         (csv_file rest : list string) (self2 self3 : provider)
         (outcome : option exn),
    exists_ fs (abspath csv_fname) = true ->
    _find_cache_file fs (fresh cls fmt model (abspath csv_fname))
      (abspath csv_fname) = Ok None ->
    open fs (abspath csv_fname) = Ok csv_file ->
    _read_meta (fresh cls fmt model (abspath csv_fname)) csv_file
    = Ok (self2, rest) ->
    _read_observations self2 rest delimiter fmt = Ok self3 ->
    _dump self3 (_get_cache_filename self3 (fp_csv_fname self3)) fs
    = (fs', outcome) ->
    __init__ fs cls csv_fname delimiter fmt model
    = match outcome with
      | None => Ok (self3, fs')
      | Some OSError =>
          Ok (logger_warn self3
                (FailedWriteCache (_get_cache_filename self3 (fp_csv_fname self3))),
              fs')
      | Some e => Raise e
      end.
Proof.
  intros Py Util Base Cache Exec fs fs' cls csv_fname delimiter fmt model
         csv_file rest self2 self3 outcome Hex Hfind Hopen Hmeta Hobs Hdump.
  unfold __init__.
  change (fp_csv_fname (fresh cls fmt model (abspath csv_fname)))
    with (abspath csv_fname).
  rewrite Hex. simpl negb. cbv iota.
  unfold _load_cache_file. rewrite Hfind. cbn [bind negb].
  unfold parse_source. rewrite Hopen. cbn [bind].
  rewrite Hmeta. cbn [bind]. rewrite Hobs. cbn [bind].
  unfold _write_cache_file. rewrite Hdump.
  destruct outcome as [[]|]; reflexivity.
Qed.

(** X11 at a cache directory that cannot be written. *)
Lemma X11_cache_write_failure_witness :
  stored_field "IRRAD"
    (__init__ (Cache := cache_read_only)
       (disk "/data/w.csv" (weather_file ["20100101,8500,2.0,10.0,1.0,3.0,0.0"]))
       "CSVWeatherDataProvider" "/data/w.csv" "," "%Y%m%d" "PM")
  = Ok ([(VDate (mkdate 2010 1 1), Some (VFloat (PyFloat.of_Z 8500000)))],
        [FailedWriteCache cache_of_w]).
Proof.
  erewrite (X11_cache_write_failure_keeps_parse python util base cache_read_only
              exec_fragment _ _ _ _ _ _ _ _ _ _ _ (Some OSError));
    cycle 1.
  - reflexivity.
  - vm_compute. reflexivity.
  - vm_compute. reflexivity.
  - vm_compute. reflexivity.
  - vm_compute. reflexivity.
  - vm_compute. reflexivity.
  - vm_compute. reflexivity.
Defined.

(** ** More on paths *)

Lemma take_drop (n : nat) : forall p, OsPath.take n p ++ OsPath.drop n p = p.
Proof.
  induction n as [|n IH]; intros [|a p]; simpl; auto. now rewrite IH.
Qed.

Lemma drop_S (n : nat) :
  forall p, OsPath.drop (S n) p = OsPath.drop 1 (OsPath.drop n p).
Proof.
  induction n as [|n IH]; intros [|a p]; try reflexivity.
  change (OsPath.drop (S (S n)) (String a p)) with (OsPath.drop (S n) p).
  rewrite IH. reflexivity.
Qed.

Lemma rfind_absent_cons c a p :
  OsPath.rfind c (String a p) = (-1)%Z <->
  Ascii.eqb a c = false /\ OsPath.rfind c p = (-1)%Z.
Proof.
  simpl. destruct (rfind_nonneg_or_absent c p) as [E|E].
  - rewrite E. simpl. destruct (Ascii.eqb a c); split; intros H;
      try discriminate; try tauto. destruct H. discriminate.
  - assert (Hle : (0 <=? OsPath.rfind c p)%Z = true) by (apply Z.leb_le; lia).
    rewrite Hle. split; [lia|]. intros [_ H]. lia.
Qed.

Lemma rfind_app_absent c (a b : string) :
  OsPath.rfind c a = (-1)%Z -> OsPath.rfind c b = (-1)%Z ->
  OsPath.rfind c (a ++ b) = (-1)%Z.
Proof.
  induction a as [|x a IH]; intros Ha Hb; [assumption|].
  apply rfind_absent_cons in Ha. destruct Ha as [Hx Ha].
  change (String x a ++ b) with (String x (a ++ b)).
  apply rfind_absent_cons. auto.
Qed.

Lemma rfind_take_absent c (n : nat) :
  forall p, OsPath.rfind c p = (-1)%Z -> OsPath.rfind c (OsPath.take n p) = (-1)%Z.
Proof.
  induction n as [|n IH]; intros [|a p] H; try reflexivity.
  apply rfind_absent_cons in H. destruct H as [Ha Hp].
  change (OsPath.take (S n) (String a p)) with (String a (OsPath.take n p)).
  apply rfind_absent_cons. auto.
Qed.

(** From the last occurrence of [c] on, a string is [c] followed by a
    string without [c]. *)
Lemma rfind_drop c :
  forall p, (0 <= OsPath.rfind c p)%Z ->
    exists r, OsPath.drop (Z.to_nat (OsPath.rfind c p)) p = String c r
              /\ OsPath.rfind c r = (-1)%Z.
Proof.
  induction p as [|a p IH]; simpl; [lia|].
  destruct (0 <=? OsPath.rfind c p)%Z eqn:E.
  - apply Z.leb_le in E. intros _. destruct (IH E) as (r & Hr & Hno).
    exists r. split; [|assumption].
    replace (Z.to_nat (OsPath.rfind c p + 1)) with (S (Z.to_nat (OsPath.rfind c p)))
      by lia.
    exact Hr.
  - destruct (Ascii.eqb a c) eqn:Ea; [|lia]. intros _.
    apply Ascii.eqb_eq in Ea. subst a. exists p. split; [reflexivity|].
    apply Z.leb_gt in E. destruct (rfind_nonneg_or_absent c p); lia.
Qed.

Lemma basename_no_sep (p : string) :
  OsPath.rfind OsPath.sep (OsPath.basename p) = (-1)%Z.
Proof.
  unfold OsPath.basename.
  destruct (rfind_nonneg_or_absent OsPath.sep p) as [E|E].
  - rewrite E. exact E.
  - destruct (rfind_drop OsPath.sep p E) as (r & Hr & Hno).
    replace (Z.to_nat (OsPath.rfind OsPath.sep p + 1))
      with (S (Z.to_nat (OsPath.rfind OsPath.sep p))) by lia.
    rewrite drop_S, Hr. exact Hno.
Qed.

Lemma splitext_loop_cases p d :
  forall n i,
    OsPath.splitext_loop p d i n = (p, EmptyString) \/
    OsPath.splitext_loop p d i n = (OsPath.take d p, OsPath.drop d p).
Proof.
  induction n as [|n IH]; intros i; simpl; [now left|].
  destruct (negb _); [now right|apply IH].
Qed.

Lemma splitext_cases (p : string) :
  OsPath.splitext p = (p, EmptyString) \/
  ((0 <= OsPath.rfind OsPath.extsep p)%Z /\
   OsPath.splitext p
   = (OsPath.take (Z.to_nat (OsPath.rfind OsPath.extsep p)) p,
      OsPath.drop (Z.to_nat (OsPath.rfind OsPath.extsep p)) p)).
Proof.
  unfold OsPath.splitext.
  destruct (OsPath.rfind OsPath.sep p <? OsPath.rfind OsPath.extsep p)%Z eqn:E;
    [|now left].
  apply Z.ltb_lt in E.
  destruct (splitext_loop_cases p (Z.to_nat (OsPath.rfind OsPath.extsep p))
              (Z.to_nat (OsPath.rfind OsPath.extsep p - (OsPath.rfind OsPath.sep p + 1)))
              (Z.to_nat (OsPath.rfind OsPath.sep p + 1))) as [H|H];
    [now left|right].
  split; [|exact H].
  destruct (rfind_nonneg_or_absent OsPath.sep p); lia.
Qed.

(** X12: [splitext] cuts a path in two: root and extension concatenate to
    the path, and the extension is empty or a dot followed by a string
    without a dot. *)
Theorem X12_splitext_root_plus_ext :
  forall p : string,
    fst (OsPath.splitext p) ++ snd (OsPath.splitext p) = p
    /\ (snd (OsPath.splitext p) = EmptyString \/
        exists r, snd (OsPath.splitext p) = String OsPath.extsep r
                  /\ OsPath.rfind OsPath.extsep r = (-1)%Z).
Proof.
  intros p. destruct (splitext_cases p) as [E|[Hdot E]]; rewrite E; simpl.
  - split; [|now left]. clear E. induction p; simpl; congruence.
  - split; [apply take_drop|right].
    exact (rfind_drop OsPath.extsep p Hdot).
Qed.

Lemma no_sep_not_absolute (s : string) :
  OsPath.rfind OsPath.sep s = (-1)%Z ->
  OsPath.startswith (String OsPath.sep EmptyString) s = false.
Proof.
  destruct s as [|a s]; [reflexivity|]. intros H.
  apply rfind_absent_cons in H. destruct H as [Ha _].
  unfold OsPath.startswith. cbn [String.prefix].
  destruct (ascii_dec OsPath.sep a) as [<-|]; [|reflexivity].
  discriminate.
Qed.

(** X13: whatever the source path, the cache file is a direct child of the
    cache directory: its name is the directory, a separator unless the
    directory is empty or ends in one, and a leaf without a separator (for
    a class name without one).  No source path leads out of the cache
    directory. *)
Theorem X13_cache_file_is_child_of_cache_dir :
  forall (Py : Python) (Util : PcseUtil) (Base : PcseBase) (Cache : PcseCache)
         (self : provider) (csv_fname : string),
    OsPath.rfind OsPath.sep (class_name self) = (-1)%Z ->
    exists leaf,
      OsPath.rfind OsPath.sep leaf = (-1)%Z /\
      _get_cache_filename self csv_fname
      = if String.eqb METEO_CACHE_DIR EmptyString
           || OsPath.endswith_sep METEO_CACHE_DIR
        then METEO_CACHE_DIR ++ leaf
        else METEO_CACHE_DIR ++ "/" ++ leaf.
Proof.
  intros Py Util Base Cache self csv_fname Hcls.
  unfold _get_cache_filename.
  pose proof (basename_no_sep csv_fname) as Hb.
  assert (Hroot : OsPath.rfind OsPath.sep
                    (fst (OsPath.splitext (OsPath.basename csv_fname))) = (-1)%Z).
  { destruct (splitext_cases (OsPath.basename csv_fname)) as [E|[_ E]];
      rewrite E; simpl; [assumption|now apply rfind_take_absent]. }
  destruct (OsPath.splitext (OsPath.basename csv_fname)) as [filename ext].
  simpl in Hroot.
  exists (class_name self ++ "_" ++ filename ++ ".cache"). split.
  - repeat apply rfind_app_absent; auto.
  - unfold OsPath.join. rewrite no_sep_not_absolute; [reflexivity|].
    repeat apply rfind_app_absent; auto.
Qed.

(** X13 at a source path with parent-directory steps. *)
Lemma X13_cache_file_witness :
  exists leaf,
    OsPath.rfind OsPath.sep leaf = (-1)%Z /\
    _get_cache_filename (fresh "CSVWeatherDataProvider" "%Y%m%d" "PM" "x")
      "/data/../../etc/w.csv"
    = "/home/user/.pcse/meteo_cache" ++ "/" ++ leaf.
Proof.
  exact (X13_cache_file_is_child_of_cache_dir python util base cache
           (fresh "CSVWeatherDataProvider" "%Y%m%d" "PM" "x")
           "/data/../../etc/w.csv" eq_refl).
Defined.

Lemma rfind_last (c : ascii) (a b : string) :
  OsPath.rfind c b = (-1)%Z ->
  OsPath.rfind c (a ++ String c b) = Z.of_nat (String.length a).
Proof.
  intros H. induction a as [|x a IH].
  - simpl. rewrite H. simpl. now rewrite Ascii.eqb_refl.
  - cbn [append OsPath.rfind String.length]. rewrite IH.
    assert (E : (0 <=? Z.of_nat (String.length a))%Z = true)
      by (apply Z.leb_le; lia).
    rewrite E. lia.
Qed.

Lemma take_app_length (a b : string) : OsPath.take (String.length a) (a ++ b) = a.
Proof. induction a as [|x a IH]; simpl; [now destruct b|now rewrite IH]. Qed.

Lemma drop_app_length (a b : string) : OsPath.drop (String.length a) (a ++ b) = b.
Proof. induction a as [|x a IH]; simpl; auto. Qed.

(** A name [stem.ext] without separator, with a non-empty stem and no
    further dot, splits into the stem and the dotted extension. *)
Lemma splitext_stem_ext (stem ext : string) :
  stem <> EmptyString ->
  OsPath.rfind OsPath.sep stem = (-1)%Z ->
  OsPath.rfind OsPath.extsep stem = (-1)%Z ->
  OsPath.rfind OsPath.sep ext = (-1)%Z ->
  OsPath.rfind OsPath.extsep ext = (-1)%Z ->
  OsPath.splitext (stem ++ "." ++ ext) = (stem, "." ++ ext).
Proof.
  intros Hne Hs1 Hd1 Hs2 Hd2.
  change (stem ++ "." ++ ext) with (stem ++ String OsPath.extsep ext).
  unfold OsPath.splitext.
  rewrite (rfind_last OsPath.extsep stem ext Hd2).
  assert (Hsep : OsPath.rfind OsPath.sep (stem ++ String OsPath.extsep ext)
                 = (-1)%Z).
  { apply rfind_app_absent; [assumption|].
    apply rfind_absent_cons. split; [reflexivity|assumption]. }
  rewrite Hsep.
  assert (E : (-1 <? Z.of_nat (String.length stem))%Z = true)
    by (apply Z.ltb_lt; lia).
  rewrite E. rewrite Nat2Z.id.
  replace (Z.to_nat (Z.of_nat (String.length stem) - (-1 + 1)))
    with (String.length stem) by lia.
  destruct stem as [|x stem]; [contradiction|].
  apply rfind_absent_cons in Hd1. destruct Hd1 as [Hx _].
  cbn [String.length OsPath.splitext_loop].
  change (Z.to_nat (-1 + 1)) with 0%nat.
  assert (Hc : String.eqb (OsPath.char_at 0 (String x stem ++ String OsPath.extsep ext))
                 (String OsPath.extsep EmptyString) = false).
  { unfold OsPath.char_at. simpl. rewrite Hx. reflexivity. }
  rewrite Hc. simpl negb. cbv iota.
  change (S (String.length stem)) with (String.length (String x stem)).
  now rewrite take_app_length, drop_app_length.
Qed.

(** X14: the cache file name does not depend on the extension of the
    source file: two source files whose names differ in the extension
    only, in whatever directories, have one cache file name, built from the
    class name and the stem. *)
Theorem X14_cache_filename_ignores_extension :
  forall (Py : Python) (Util : PcseUtil) (Base : PcseBase) (Cache : PcseCache)
         (self : provider) (dir1 dir2 stem ext1 ext2 : string),
    stem <> EmptyString ->
    OsPath.rfind OsPath.sep stem = (-1)%Z ->
    OsPath.rfind OsPath.extsep stem = (-1)%Z ->
    OsPath.rfind OsPath.sep ext1 = (-1)%Z ->
    OsPath.rfind OsPath.extsep ext1 = (-1)%Z ->
    OsPath.rfind OsPath.sep ext2 = (-1)%Z ->
    OsPath.rfind OsPath.extsep ext2 = (-1)%Z ->
    _get_cache_filename self (dir1 ++ "/" ++ stem ++ "." ++ ext1)
    = OsPath.join METEO_CACHE_DIR (class_name self ++ "_" ++ stem ++ ".cache")
    /\ _get_cache_filename self (dir1 ++ "/" ++ stem ++ "." ++ ext1)
       = _get_cache_filename self (dir2 ++ "/" ++ stem ++ "." ++ ext2).
Proof.
  intros Py Util Base Cache self dir1 dir2 stem ext1 ext2
         Hne Hs Hd Hs1 Hd1 Hs2 Hd2.
  assert (G : forall dir ext,
             OsPath.rfind OsPath.sep ext = (-1)%Z ->
             OsPath.rfind OsPath.extsep ext = (-1)%Z ->
             _get_cache_filename self (dir ++ "/" ++ stem ++ "." ++ ext)
             = OsPath.join METEO_CACHE_DIR
                 (class_name self ++ "_" ++ stem ++ ".cache")).
  { intros dir ext Hse Hde. unfold _get_cache_filename.
    rewrite basename_directory.
    - now rewrite splitext_stem_ext.
    - apply rfind_app_absent; [assumption|].
      apply rfind_absent_cons. split; [reflexivity|assumption]. }
  split; [now apply G|]. now rewrite !G.
Qed.

(** X14 at /a/w.csv and /b/w.txt. *)
Lemma X14_cache_filename_witness :
  _get_cache_filename (fresh "CSVWeatherDataProvider" "%Y%m%d" "PM" "x")
    ("/a" ++ "/" ++ "w" ++ "." ++ "csv")
  = _get_cache_filename (fresh "CSVWeatherDataProvider" "%Y%m%d" "PM" "x")
      ("/b" ++ "/" ++ "w" ++ "." ++ "txt").
Proof.
  apply (proj2 (X14_cache_filename_ignores_extension python util base cache
                  (fresh "CSVWeatherDataProvider" "%Y%m%d" "PM" "x")
                  "/a" "/b" "w" "csv" "txt" ltac:(discriminate)
                  eq_refl eq_refl eq_refl eq_refl eq_refl eq_refl)).
Defined.

(** ** Keyword arguments *)

Section KwargsFacts.
Context {Py : Python} {Util : PcseUtil} {Base : PcseBase}
        {Cache : PcseCache}.

Lemma kwargs_disjoint (explicit d : dict pyval) :
  (forall k, In k (dict_keys d) -> dict_mem k explicit = false) ->
  kwargs explicit d = Ok (explicit ++ d)%list.
Proof.
  intros H. unfold kwargs.
  destruct (existsb _ (dict_keys d)) eqn:E; [|reflexivity].
  apply existsb_exists in E. destruct E as (k & Hk & Hm).
  rewrite (H k Hk) in Hm. discriminate.
Qed.

(** A field name of the table or of the evaporation rates is none of the
    station arguments. *)
Lemma field_is_no_station_argument (k : string) :
  dict_mem k obs_conversions = true \/ In k ["E0"; "ES0"; "ET0"] ->
  String.eqb k "LAT" = false /\ String.eqb k "LON" = false /\
  String.eqb k "ELEV" = false /\ String.eqb k "ANGSTA" = false /\
  String.eqb k "ANGSTB" = false.
Proof.
  intros H.
  assert (G : forall s,
             dict_mem s obs_conversions = false ->
             existsb (String.eqb s) ["E0"; "ES0"; "ET0"] = false ->
             String.eqb k s = false).
  { intros s Hs1 Hs2. destruct (String.eqb k s) eqn:E; [|reflexivity].
    apply String.eqb_eq in E. subst s. destruct H as [H|H].
    - congruence.
    - assert (existsb (String.eqb k) ["E0"; "ES0"; "ET0"] = true); [|congruence].
      apply existsb_exists. exists k. split; [assumption|apply String.eqb_refl]. }
  repeat split; apply G; reflexivity.
Qed.

Lemma convert_fields_keys fmt (d d' : dict pyval) (k : string) :
  convert_fields fmt (dict_keys d) d = Ok d' ->
  NoDup (dict_keys d) ->
  In k (dict_keys d') -> In k (dict_keys d).
Proof.
  intros Hconv Hnd Hk.
  destruct (in_dec string_dec k (dict_keys d)) as [Hin|Hout]; [assumption|].
  destruct (dict_In_get _ _ Hk) as [x Hx].
  destruct (convert_fields_values fmt _ _ _ Hnd Hconv) as [_ Hsame].
  rewrite (Hsame _ Hout) in Hx. apply dict_get_In in Hx. contradiction.
Qed.

Lemma sunshine_keys m (d d2 : dict pyval) (k : string) :
  sunshine m d = Ok d2 ->
  In k (dict_keys d2) -> k = "IRRAD" \/ In k (dict_keys d).
Proof.
  intros Hs Hk.
  destruct (string_dec k "IRRAD") as [->|Hne]; [now left|right].
  destruct (dict_In_get _ _ Hk) as [x Hx].
  rewrite (sunshine_other_fields m d d2 k Hs Hne) in Hx.
  eapply dict_get_In; eauto.
Qed.

Lemma evapotranspiration_keys m (d d3 : dict pyval) (k : string) :
  evapotranspiration m d = Ok d3 ->
  In k (dict_keys d3) -> In k ["E0"; "ES0"; "ET0"] \/ In k (dict_keys d).
Proof.
  intros He Hk.
  destruct (evapotranspiration_fields m d d3 He)
    as (_ & _ & _ & _ & _ & _ & _ & _ & _ & Hsame).
  destruct (string_dec k "E0") as [->|H0]; [left; simpl; auto|].
  destruct (string_dec k "ES0") as [->|H1]; [left; simpl; auto|].
  destruct (string_dec k "ET0") as [->|H2]; [left; simpl; auto|].
  right. destruct (dict_In_get _ _ Hk) as [x Hx].
  rewrite (Hsame k H0 H1 H2) in Hx. eapply dict_get_In; eauto.
Qed.
End KwargsFacts.

(** X15: under a translated header the two calls with keyword arguments
    never fail on an argument given twice: the fields of a row are canonical
    names and evaporation rates, none of which is LAT, LON, ELEV, ANGSTA or
    ANGSTB.  After the conversions and the sunshine branch, the reference ET
    is called with the four station arguments followed by the fields; and
    once it has returned its three values, the container is called with LAT,
    LON, ELEV followed by the fields and the three rates. *)
Theorem X15_keyword_arguments_never_collide :
  forall (Py : Python) (Util : PcseUtil) (Base : PcseBase) (Cache : PcseCache)
         (m : station) (fmt : string) (raw_header row : list string)
         (d1 d2 : dict pyval),
    convert_fields fmt (dict_keys (row_dict (map translate raw_header) row))
      (row_dict (map translate raw_header) row) = Ok d1 ->
    sunshine m d1 = Ok d2 ->
    reference_ET_args m d2
    = Ok ([ ("LAT", VFloat (latitude m)); ("ELEV", VFloat (elevation m));
            ("ANGSTA", VFloat (angstA m)); ("ANGSTB", VFloat (angstB m)) ]
          ++ d2)%list
    /\ forall e0 es0 et0 : float,
         reference_ET
           ([ ("LAT", VFloat (latitude m)); ("ELEV", VFloat (elevation m));
              ("ANGSTA", VFloat (angstA m)); ("ANGSTB", VFloat (angstB m)) ]
            ++ d2)%list = Ok (e0, es0, et0) ->
         exists d3,
           evapotranspiration m d2 = Ok d3 /\
           kwargs [ ("LAT", VFloat (latitude m)); ("LON", VFloat (longitude m));
                    ("ELEV", VFloat (elevation m)) ] d3
           = Ok ([ ("LAT", VFloat (latitude m)); ("LON", VFloat (longitude m));
                   ("ELEV", VFloat (elevation m)) ] ++ d3)%list.
Proof.
  intros Py Util Base Cache m fmt raw_header row d1 d2 Hconv Hsun.
  destruct (row_dict_facts (map translate raw_header) row) as (Hnd & _).
  assert (H2 : forall k, In k (dict_keys d2) -> dict_mem k obs_conversions = true).
  { intros k Hk. destruct (sunshine_keys m d1 d2 k Hsun Hk) as [->|Hk1];
      [reflexivity|].
    eapply translated_keys_in_table.
    eapply convert_fields_keys; eauto. }
  assert (Hargs : reference_ET_args m d2
                  = Ok ([ ("LAT", VFloat (latitude m));
                          ("ELEV", VFloat (elevation m));
                          ("ANGSTA", VFloat (angstA m));
                          ("ANGSTB", VFloat (angstB m)) ] ++ d2)%list).
  { apply kwargs_disjoint. intros k Hk.
    destruct (field_is_no_station_argument k (or_introl (H2 k Hk)))
      as (E1 & _ & E3 & E4 & E5).
    unfold dict_mem. cbn [dict_get]. now rewrite E1, E3, E4, E5. }
  split; [exact Hargs|].
  intros e0 es0 et0 Hret.
  assert (Hevap : exists d3, evapotranspiration m d2 = Ok d3).
  { unfold evapotranspiration. rewrite Hargs. cbn [bind]. rewrite Hret.
    cbn [bind]. eauto. }
  destruct Hevap as [d3 Hevap]. exists d3. split; [assumption|].
  apply kwargs_disjoint. intros k Hk.
  assert (H3 : dict_mem k obs_conversions = true \/ In k ["E0"; "ES0"; "ET0"]).
  { destruct (evapotranspiration_keys m d2 d3 k Hevap Hk); auto. }
  destruct (field_is_no_station_argument k H3) as (E1 & E2 & E3 & _ & _).
  unfold dict_mem. cbn [dict_get]. now rewrite E1, E2, E3.
Qed.

(** X15 at a row with the aliases of the translation table in the header. *)
Lemma X15_keyword_arguments_witness :
  let m := mkstation (-99) [] PyFloat.zero PyFloat.zero PyFloat.zero
             PyFloat.zero PyFloat.zero false in
  let raw := ["w_date"; "srad"; "tmin"; "tmax"; "vprs_tx"; "wind"; "station"] in
  let row := ["20100101"; "8500"; "2.0"; "10.0"; "1.0"; "3.0"; "Wageningen"] in
  exists d2 d3,
    reference_ET_args m d2
    = Ok ([ ("LAT", VFloat (latitude m)); ("ELEV", VFloat (elevation m));
            ("ANGSTA", VFloat (angstA m)); ("ANGSTB", VFloat (angstB m)) ]
          ++ d2)%list /\
    evapotranspiration m d2 = Ok d3 /\
    kwargs [ ("LAT", VFloat (latitude m)); ("LON", VFloat (longitude m));
             ("ELEV", VFloat (elevation m)) ] d3
    = Ok ([ ("LAT", VFloat (latitude m)); ("LON", VFloat (longitude m));
            ("ELEV", VFloat (elevation m)) ] ++ d3)%list.
Proof.
  intros m raw row.
  assert (Hconv : exists d1 d2,
             convert_fields "%Y%m%d" (dict_keys (row_dict (map translate raw) row))
               (row_dict (map translate raw) row) = Ok d1
             /\ sunshine m d1 = Ok d2).
  { eexists. eexists. split; vm_compute; reflexivity. }
  destruct Hconv as (d1 & d2 & Hconv & Hsun).
  destruct (X15_keyword_arguments_never_collide python util base cache m
              "%Y%m%d" raw row d1 d2 Hconv Hsun) as [Hargs Hcont].
  exists d2.
  destruct (Hcont (PyFloat.of_Z 30) (PyFloat.of_Z 20) (PyFloat.of_Z 10))
    as (d3 & Hevap & Hkw).
  - cbn [reference_ET util]. unfold reference_ET_fixed.
    assert (Hreq : forallb
                     (fun k => dict_mem k
                        ([ ("LAT", VFloat (latitude m));
                           ("ELEV", VFloat (elevation m));
                           ("ANGSTA", VFloat (angstA m));
                           ("ANGSTB", VFloat (angstB m)) ] ++ d2)%list)
                     required = true).
    { clear Hargs Hcont. vm_compute in Hconv. injection Hconv as <-.
      vm_compute in Hsun. injection Hsun as <-. reflexivity. }
    now rewrite Hreq.
  - exists d3. auto.
Defined.

(** X16: the cache lookup raises in one case only: a cache file exists under
    the derived name while the source file does not, and the exception is
    the OSError of the stat call on the source.  For an existing source the
    lookup always returns, with the cache file name or with None. *)
Theorem X16_cache_lookup_fails_only_without_source :
  forall (Py : Python) (Util : PcseUtil) (Base : PcseBase) (Cache : PcseCache)
         (fs : filesystem) (self : provider) (csv_fname : string) (e : exn),
    _find_cache_file fs self csv_fname = Raise e
    <-> (e = OSError /\
         exists_ fs (_get_cache_filename self csv_fname) = true /\
         exists_ fs csv_fname = false).
Proof.
  intros Py Util Base Cache fs self csv_fname e.
  unfold _find_cache_file, exists_, stat_mtime.
  destruct (fs (_get_cache_filename self csv_fname)) as [c|] eqn:Ec.
  - cbn [bind]. destruct (fs csv_fname) as [src|] eqn:Es; cbn [bind].
    + destruct (PyFloat.ltb (st_mtime src) (st_mtime c)); split;
        try discriminate; intros (_ & _ & H); discriminate.
    + split.
      * intros [= <-]. auto.
      * intros (-> & _ & _). reflexivity.
  - split; [discriminate|]. intros (_ & H & _). discriminate.
Qed.

(** X16 at a file system that holds the cache file but not the source. *)
Lemma X16_cache_lookup_witness :
  _find_cache_file
    (disk cache_of_w (mkfile (PyFloat.of_Z 200) (Pickle None empty_store)))
    (fresh "CSVWeatherDataProvider" "%Y%m%d" "PM" "/data/w.csv") "/data/w.csv"
  = Raise OSError.
Proof.
  apply (proj2 (X16_cache_lookup_fails_only_without_source python util base cache
                  (disk cache_of_w (mkfile (PyFloat.of_Z 200) (Pickle None empty_store)))
                  (fresh "CSVWeatherDataProvider" "%Y%m%d" "PM" "/data/w.csv")
                  "/data/w.csv" OSError)).
  repeat split.
Defined.
